(** * DSMR smart-meter sensor platform: a shallow embedding

    Embedding of [homeassistant/components/dsmr/sensor.py]:
    the entity class [DSMREntity] (one reading view per OBIS field), the
    throttled fan-out [update_entities_telegram] and the supervision
    coroutine [connect_and_reconnect].

    Python values are an inductive type, dictionaries are stdpp finite
    maps, exceptions are an explicit result type, and the coroutine is a
    resumable machine: one step runs the code from one [await] to the
    next. *)

From Stdlib Require Import ZArith Lia Bool Ascii String Sorted FinFun.
From Stdlib Require Import QArith Qround Qpower Lqa.
From stdpp Require Import base option list strings gmap.

Local Open Scope string_scope.
Local Open Scope list_scope.
Local Open Scope Z_scope.

(** ** Python values *)

Module Py.

(** The values a telegram attribute can hold.  [PRound v n] stands for the
    float [round(float(v), n)]: the term records which value was coerced
    and to how many digits; the size of the float it stands for is
    computed exactly where the code depends on it. *)
Inductive pyval : Type :=
| PNone
| PStr (s : string)
| PInt (z : Z)
| PDecimal (mantissa exponent : Z)
| PObject (cls : string)
| PRound (v : pyval) (ndigits : Z).

Inductive exn : Type :=
| TypeError
| ValueError
| OverflowError
| IndexError
| KeyError.

Inductive result (A : Type) : Type :=
| Ret (a : A)
| Raise (e : exn).
Arguments Ret {A} a.
Arguments Raise {A} e.

Definition is_none (v : pyval) : bool :=
  match v with PNone => true | _ => false end.

(** [v == s] for a string literal [s]. *)
Definition eq_str (v : pyval) (s : string) : bool :=
  match v with PStr t => String.eqb t s | _ => false end.

(** *** The literals [float(str)] accepts

    A [string] is the sequence of the code points of a [str] whose code
    points are all below 256.  Surrounding whitespace is stripped: tab,
    line feed, vertical tab, form feed, carriage return and space, and of
    the code points above 127 the next-line and the no-break space, which
    [float] turns into spaces first.  Then comes an optional sign followed
    by [inf], [infinity], [nan] (any case) or a decimal number with
    optional fraction and exponent, single underscores allowed between
    digits. *)

Definition is_space (c : ascii) : bool :=
  let n := Z.of_nat (nat_of_ascii c) in
  ((9 <=? n) && (n <=? 13)) || (n =? 32) || (n =? 133) || (n =? 160).

Definition is_digit (c : ascii) : bool :=
  let n := Z.of_nat (nat_of_ascii c) in (48 <=? n) && (n <=? 57).

Definition lower (c : ascii) : ascii :=
  let n := nat_of_ascii c in
  if ((65 <=? Z.of_nat n) && (Z.of_nat n <=? 90))%Z
  then ascii_of_nat (n + 32) else c.

Definition is_sign (c : ascii) : bool :=
  match c with "+"%char | "-"%char => true | _ => false end.

Definition chars (s : string) : list ascii := list_ascii_of_string s.

Fixpoint drop_space (l : list ascii) : list ascii :=
  match l with
  | c :: r => if is_space c then drop_space r else l
  | [] => []
  end.

Definition strip (l : list ascii) : list ascii :=
  rev (drop_space (rev (drop_space l))).

Definition skip_sign (l : list ascii) : list ascii :=
  match l with
  | c :: r => if is_sign c then r else l
  | [] => []
  end.

(** After a first digit: any number of further digits, each optionally
    preceded by one underscore. *)
Fixpoint digits_tail (l : list ascii) : list ascii :=
  match l with
  | c :: r =>
      if is_digit c then digits_tail r
      else if Ascii.eqb c "_" then
        match r with
        | d :: r' => if is_digit d then digits_tail r' else l
        | [] => l
        end
      else l
  | [] => []
  end.

Definition digitpart (l : list ascii) : option (list ascii) :=
  match l with
  | c :: r => if is_digit c then Some (digits_tail r) else None
  | [] => None
  end.

Definition after_number (l : list ascii) : option (list ascii) :=
  match digitpart l with
  | Some r =>
      match r with
      | c :: r' =>
          if Ascii.eqb c "."
          then match digitpart r' with Some r'' => Some r'' | None => Some r' end
          else Some r
      | [] => Some r
      end
  | None =>
      match l with
      | c :: r' => if Ascii.eqb c "." then digitpart r' else None
      | [] => None
      end
  end.

Definition after_exponent (l : list ascii) : option (list ascii) :=
  match l with
  | c :: r => if Ascii.eqb (lower c) "e" then digitpart (skip_sign r) else Some l
  | [] => Some []
  end.

Definition float_literal (s : string) : bool :=
  let l := skip_sign (strip (chars s)) in
  let w := map lower l in
  if bool_decide (w = chars "inf") || bool_decide (w = chars "infinity")
     || bool_decide (w = chars "nan")
  then true
  else match after_number l with
       | Some r => match after_exponent r with Some [] => true | _ => false end
       | None => false
       end.

(** *** The size of a float

    Whether [round] overflows depends on the size of the float alone.  A
    size is an exact rational; the float nearest to a rational is found
    with ties going to the even neighbour, as the conversions of the
    interpreter do. *)

(** Nearest integer, ties to even. *)
Definition rne (q : Q) : Z :=
  let a := Qnum q in
  let b := Zpos (Qden q) in
  let f := a / b in
  match 2 * (a mod b) ?= b with
  | Lt => f
  | Gt => f + 1
  | Eq => if Z.even f then f else f + 1
  end.

(** The [l] with [2^l <= q < 2^(l+1)], for a positive [q]. *)
Definition floor_log2 (q : Q) : Z :=
  let l := Z.log2 (Qnum q) - Z.log2 (Zpos (Qden q)) in
  if Qle_bool (Qpower 2 l) q then l else l - 1.

(** The double nearest to [q]: 53 bits, subnormal below [2^-1022]. *)
Definition nearest_double (q : Q) : Q :=
  if Qnum q =? 0 then 0%Q
  else
    let e := Z.max (floor_log2 q - 52) (-1074) in
    (inject_Z (rne (q / Qpower 2 e)) * Qpower 2 e)%Q.

Definition huge : Q := inject_Z (2 ^ 1024 - 2 ^ 970).

Inductive magnitude : Type :=
| Finite (q : Q)
| Infinite
| Not_a_number.


Definition to_float (q : Q) : magnitude :=
  if Qle_bool huge q then Infinite else Finite (nearest_double q).

(** [x] rounded to [ndigits] decimals, exactly. *)
Definition round_decimal (x : Q) (ndigits : Z) : Q :=
  (inject_Z (rne (x * Qpower 10 ndigits)) / Qpower 10 ndigits)%Q.

(** [float.__round__] with a number of digits: infinities and nans round
    to themselves, more than 323 digits change nothing, fewer than -308
    give zero; otherwise the value is rounded in decimal and converted
    back, which raises [OverflowError] when the result is out of range. *)
Definition round_magnitude (m : magnitude) (ndigits : Z) : result magnitude :=
  match m with
  | Finite x =>
      if 323 <? ndigits then Ret (Finite x)
      else if ndigits <? -308 then Ret (Finite 0)
      else match to_float (round_decimal x ndigits) with
           | Infinite => Raise OverflowError
           | r => Ret r
           end
  | _ => Ret m
  end.

Definition digit_value (c : ascii) : Z := Z.of_nat (nat_of_ascii c) - 48.

(** The digits that [digits_tail] passes over, as a number, with their
    count. *)
Fixpoint read_digits (l : list ascii) (acc count : Z) : Z * Z * list ascii :=
  match l with
  | c :: r =>
      if is_digit c then read_digits r (10 * acc + digit_value c) (count + 1)
      else if Ascii.eqb c "_" then
        match r with
        | d :: r' =>
            if is_digit d then read_digits r' (10 * acc + digit_value d) (count + 1)
            else (acc, count, l)
        | [] => (acc, count, l)
        end
      else (acc, count, l)
  | [] => (acc, count, [])
  end.

(** The size of the float that a float literal denotes. *)
Definition literal_magnitude (s : string) : magnitude :=
  let l := skip_sign (strip (chars s)) in
  let w := map lower l in
  if bool_decide (w = chars "inf") || bool_decide (w = chars "infinity") then Infinite
  else if bool_decide (w = chars "nan") then Not_a_number
  else
    let '(ip, _, r1) := read_digits l 0 0 in
    let '(fp, fc, r2) :=
      match r1 with
      | c :: r => if Ascii.eqb c "." then read_digits r 0 0 else (0, 0, r1)
      | [] => (0, 0, r1)
      end in
    let ex :=
      match r2 with
      | c :: r =>
          if Ascii.eqb (lower c) "e" then
            let '(v, _, _) := read_digits (skip_sign r) 0 0 in
            match r with
            | sg :: _ => if Ascii.eqb sg "-" then - v else v
            | [] => v
            end
          else 0
      | [] => 0
      end in
    to_float (inject_Z (ip * 10 ^ fc + fp) * Qpower 10 (ex - fc)).

(** *** [float(v)]

    [None] and objects without [__float__] raise [TypeError]; a string
    that is not a float literal raises [ValueError]; an [int] that rounds
    beyond the largest double raises [OverflowError]. *)
Definition float_overflows (z : Z) : bool :=
  2 ^ 1024 - 2 ^ 970 <=? Z.abs z.

Definition float (v : pyval) : result unit :=
  match v with
  | PNone => Raise TypeError
  | PStr s => if float_literal s then Ret tt else Raise ValueError
  | PInt z => if float_overflows z then Raise OverflowError else Ret tt
  | PDecimal _ _ => Ret tt
  | PObject _ => Raise TypeError
  | PRound _ _ => Ret tt
  end.

(** The size of [float(v)], for the values that [float] accepts; a
    [Decimal] or a literal beyond the largest double gives infinity.  A
    term [PRound v n] has a size when that rounding succeeds. *)
Fixpoint magnitude_of (v : pyval) : option magnitude :=
  match v with
  | PNone => None
  | PStr s => if float_literal s then Some (literal_magnitude s) else None
  | PInt z => if float_overflows z then None
              else Some (Finite (nearest_double (inject_Z (Z.abs z))))
  | PDecimal m e => Some (to_float (inject_Z (Z.abs m) * Qpower 10 e))
  | PObject _ => None
  | PRound v n =>
      match magnitude_of v with
      | Some m => match round_magnitude m n with
                  | Ret r => Some r
                  | Raise _ => None
                  end
      | None => None
      end
  end.

(** [round(float(v), ndigits)], for a [v] that [float] accepts. *)
Definition round (v : pyval) (ndigits : Z) : result pyval :=
  match magnitude_of v with
  | Some m => match round_magnitude m ndigits with
              | Ret _ => Ret (PRound v ndigits)
              | Raise e => Raise e
              end
  | None => Ret (PRound v ndigits)
  end.

End Py.
Import Py.

(** ** Constants of [const.py] and of the parser library *)

(** Modelled from the spec: [const.py] is not part of the sources at hand;
    the spec gives the numeric display precision default as 2. *)
Definition DEFAULT_PRECISION : Z := 2.

(** Modelled from the spec: [const.py] is not part of the sources at hand;
    the spec gives the reconnect interval default as 30 seconds. *)
Definition DEFAULT_RECONNECT_INTERVAL : Z := 30.

(** Modelled from the spec: [const.py] is not part of the sources at hand;
    the spec gives the minimum time between updates default as 30 seconds. *)
Definition DEFAULT_TIME_BETWEEN_UPDATE : Z := 30.

(** OBIS references are opaque dictionary keys here; the key of the active
    tariff is the pattern string the parser library uses for it. *)
Definition ELECTRICITY_ACTIVE_TARIFF : string := "\d-\d:96\.14\.0.+?\r\n".

(** ** Configuration and telegrams *)

(** [entry.data]: keys read by subscript are fields, keys read with
    [.get] are optional. *)
Record Config : Type := {
  dsmr_version : string;
  precision : option Z;
  reconnect_interval : Z
}.

(** [entry.options]. *)
Record Options : Type := {
  time_between_update : option Z
}.

(** An attribute of a DSMR object as [getattr] finds it: a value, or a
    property whose getter raises an exception.  An attribute that the
    object does not have, or whose getter raises [AttributeError], is no
    key of the dictionary. *)
Inductive attribute : Type :=
| Attr (v : pyval)
| Raises (e : exn).

(** A DSMR object is seen through [getattr] only: its attribute dictionary. *)
Abbreviation DSMRObject := (gmap string attribute).
Abbreviation Telegram := (gmap string (gmap string attribute)).

(** [getattr(dsmr_object, name, default)]: the default is for a missing
    attribute only; what a getter raises goes on to the caller. *)
Definition getattr (dsmr_object : DSMRObject) (name : string) (default : pyval)
  : result pyval :=
  match dsmr_object !! name with
  | Some (Attr v) => Ret v
  | Some (Raises e) => Raise e
  | None => Ret default
  end.

Inductive HomeAssistant : Type := Hass.

(** ** class DSMREntity *)

Record DSMREntity : Type := {
  _obis : string;
  _config : Config;
  telegram : Telegram;
  hass : option HomeAssistant;
  _attr_name : string;
  _attr_force_update : bool;
  _attr_unique_id : string;
  _attr_device_info : string * string
}.

Definition replace_char (a b : ascii) (s : string) : string :=
  string_of_list_ascii
    (map (fun c => if Ascii.eqb c a then b else c) (list_ascii_of_string s)).

(** [__init__] *)
Definition __init__ (name device_name device_serial obis : string)
    (config : Config) (force_update : bool) : DSMREntity :=
  {| _obis := obis;
     _config := config;
     telegram := ∅;
     hass := None;
     _attr_name := name;
     _attr_force_update := force_update;
     _attr_unique_id := replace_char " " "_" (device_serial +:+ "_" +:+ name);
     _attr_device_info := (device_serial, device_name) |}.

Definition set_telegram (self : DSMREntity) (t : Telegram) : DSMREntity :=
  {| _obis := _obis self;
     _config := _config self;
     telegram := t;
     hass := hass self;
     _attr_name := _attr_name self;
     _attr_force_update := _attr_force_update self;
     _attr_unique_id := _attr_unique_id self;
     _attr_device_info := _attr_device_info self |}.

(** The framework attaches an entity by setting its [hass] handle. *)
Definition set_hass (self : DSMREntity) (h : option HomeAssistant) : DSMREntity :=
  {| _obis := _obis self;
     _config := _config self;
     telegram := telegram self;
     hass := h;
     _attr_name := _attr_name self;
     _attr_force_update := _attr_force_update self;
     _attr_unique_id := _attr_unique_id self;
     _attr_device_info := _attr_device_info self |}.

(** [self._obis in self.telegram] *)
Definition obis_in (self : DSMREntity) : bool :=
  bool_decide (is_Some (telegram self !! _obis self)).

(** [update_data]: store the telegram; the boolean tells whether
    [async_write_ha_state] was called. *)
Definition update_data (self : DSMREntity) (t : Telegram) : DSMREntity * bool :=
  let self := set_telegram self t in
  if bool_decide (is_Some (hass self)) && obis_in self
  then (self, true)
  else (self, false).

(** [get_dsmr_object_attr]; the last line is [getattr(dsmr_object,
    attribute, None)]. *)
Definition get_dsmr_object_attr (self : DSMREntity) (attribute : string)
  : result pyval :=
  if negb (obis_in self) then Ret PNone
  else match telegram self !! _obis self with
       | Some dsmr_object => getattr dsmr_object attribute PNone
       | None => Ret PNone
       end.

(** [translate_tariff] *)
Definition translate_tariff (value : pyval) (dsmr_version : string) : pyval :=
  let value :=
    if String.eqb dsmr_version "5B" then
      if eq_str value "0001" then PStr "0002"
      else if eq_str value "0002" then PStr "0001"
      else value
    else value in
  if eq_str value "0002" then PStr "normal"
  else if eq_str value "0001" then PStr "low"
  else PNone.

(** [state]: the attribute is read before anything else, outside the
    [with]; [suppress(TypeError)] absorbs a [TypeError] of the coercion
    and leaves [value] as it was; any other exception leaves the
    property. *)
Definition state (self : DSMREntity) : result pyval :=
  match get_dsmr_object_attr self "value" with
  | Raise e => Raise e
  | Ret value =>
      if String.eqb (_obis self) ELECTRICITY_ACTIVE_TARIFF
      then Ret (translate_tariff value (dsmr_version (_config self)))
      else
        let ndigits := default DEFAULT_PRECISION (precision (_config self)) in
        let suppressed :=
          match float value with
          | Ret _ => round value ndigits
          | Raise TypeError => Ret value
          | Raise e => Raise e
          end in
        match suppressed with
        | Ret value => if negb (is_none value) then Ret value else Ret PNone
        | Raise e => Raise e
        end
  end.

(** [unit_of_measurement] *)
Definition unit_of_measurement (self : DSMREntity) : result pyval :=
  get_dsmr_object_attr self "unit".

(** ** The throttled fan-out *)

(** [update_entities_telegram], the decorated function: every device gets
    the telegram; the booleans tell which of them wrote their state. *)
Definition update_entities_telegram (devices : list DSMREntity) (t : Telegram)
  : list DSMREntity * list bool :=
  let r := map (fun device => update_data device t) devices in
  (map fst r, map snd r).

(** Modelled from the spec: the decorator [homeassistant.util.Throttle] is
    not part of the sources at hand.  The spec describes a leading-edge
    throttle: a call is forwarded when nothing was forwarded before or
    when more than the minimum interval has passed since the last
    forwarded call; any other call is dropped, and a dropped telegram is
    not kept.  Its state is the time of the last forwarded call. *)
Record Throttle : Type := {
  min_time : Z;
  last_call : option Z
}.

(** Modelled from the spec: [Throttle] as above; [true] when a call at
    time [now] falls in the suppression window. *)
Definition is_throttled (th : Throttle) (now : Z) : bool :=
  match last_call th with
  | None => false
  | Some t => now - t <=? min_time th
  end.

Record Platform : Type := {
  devices : list DSMREntity;
  throttle : Throttle
}.

(** [min_time_between_updates] of [async_setup_entry]. *)
Definition min_time_between_updates (options : Options) : Z :=
  default DEFAULT_TIME_BETWEEN_UPDATE (time_between_update options).

Definition setup_platform (devs : list DSMREntity) (options : Options) : Platform :=
  {| devices := devs;
     throttle := {| min_time := min_time_between_updates options;
                    last_call := None |} |}.

(** A call of the throttled [update_entities_telegram] at time [now]:
    [None] when the call is dropped, otherwise the notifications made. *)
Definition publish (now : Z) (t : Telegram) (p : Platform)
  : Platform * option (list bool) :=
  if is_throttled (throttle p) now then (p, None)
  else
    let '(devs, notified) := update_entities_telegram (devices p) t in
    ({| devices := devs;
        throttle := {| min_time := min_time (throttle p); last_call := Some now |} |},
     Some notified).

(** The calls that were forwarded, in order, with their time and telegram. *)
Fixpoint forwarded (pubs : list (Z * Telegram)) (p : Platform) : list (Z * Telegram) :=
  match pubs with
  | [] => []
  | (now, t) :: rest =>
      match publish now t p with
      | (p', Some _) => (now, t) :: forwarded rest p'
      | (p', None) => forwarded rest p'
      end
  end.

Fixpoint publish_all (pubs : list (Z * Telegram)) (p : Platform) : Platform :=
  match pubs with
  | [] => p
  | (now, t) :: rest => publish_all rest (fst (publish now t p))
  end.

(** ** The supervision coroutine [connect_and_reconnect]

    The coroutine is suspended at one of its [await]s and is resumed by the
    event loop with a value or with an exception thrown at that [await].
    One [step] runs the code from the resumption to the next suspension and
    returns the calls it made on the way. *)

Module Supervisor.

(** [hass.state] *)
Inductive CoreState : Type :=
| not_running | starting | running | stopping | final_write | stopped.

(** [hass.is_stopping] *)
Definition is_stopping (hs : CoreState) : bool :=
  match hs with stopping | final_write => true | _ => false end.

Definition state_is_stopping (hs : CoreState) : bool :=
  match hs with stopping => true | _ => false end.

Inductive signal : Type :=
| SerialException
| OSError
| CancelledError
| AttributeError.

(** What the event loop hands to the suspended coroutine. *)
Inductive resume : Type :=
| Connected (transport protocol : option nat)
| Returned_None
| Throw (e : signal).

Inductive action : Type :=
| Call_reader_factory
| Listen_once
| Call_stop_listener
| Publish (t : Telegram)
| Sleep (seconds : Z)
| Log_exception
| Transport_close
| Wait_closed.

Inductive outcome : Type :=
| Returned
| Propagated (e : signal).

Inductive point : Type :=
| At_connect
| At_wait_closed
| At_sleep
| At_cancel_wait
| Finished (o : outcome).

Inductive unsub : Type := Remove_listener.

Record locals : Type := {
  stop_listener : option unsub;
  transport : option nat;
  protocol : option nat
}.

(** Truth value of a variable holding [None] or an object. *)
Definition truthy {A : Type} (o : option A) : bool :=
  match o with Some _ => true | None => false end.

Definition initial_locals : locals :=
  {| stop_listener := None; transport := None; protocol := None |}.

Definition clear_connection (l : locals) : locals :=
  {| stop_listener := stop_listener l; transport := None; protocol := None |}.

Definition task : Type := point * locals.

(** The [while] test and, when it passes, the call of the reader factory. *)
Definition loop_head (hs : CoreState) (l : locals) : task * list action :=
  if state_is_stopping hs then ((Finished Returned, l), [])
  else ((At_connect, l), [Call_reader_factory]).

(** From [transport = None] to the [await asyncio.sleep(...)]. *)
Definition after_session (config : Config) (l : locals) : task * list action :=
  ((At_sleep, clear_connection l), [Publish ∅; Sleep (reconnect_interval config)]).

(** [except (serial.serialutil.SerialException, OSError)] *)
Definition except_io (hs : CoreState) (l : locals) : task * list action :=
  let '(t, acts) := loop_head hs (clear_connection l) in
  (t, Log_exception :: acts).

(** [except CancelledError] *)
Definition except_cancelled (l : locals) : task * list action :=
  let a1 := if truthy (stop_listener l) then [Call_stop_listener] else [] in
  let a2 := if truthy (transport l) then [Transport_close] else [] in
  if truthy (protocol l)
  then ((At_cancel_wait, l), a1 ++ a2 ++ [Wait_closed])
  else ((Finished Returned, l), a1 ++ a2).

(** An exception raised inside the [try]. *)
Definition raised (hs : CoreState) (l : locals) (e : signal) : task * list action :=
  match e with
  | SerialException | OSError => except_io hs l
  | CancelledError => except_cancelled l
  | AttributeError => ((Finished (Propagated AttributeError), l), [])
  end.

(** The call of the coroutine, up to its first suspension. *)
Definition start (hs : CoreState) : task * list action :=
  loop_head hs initial_locals.

Definition step (config : Config) (hs : CoreState) (tk : task) (r : resume)
  : option (task * list action) :=
  let '(pt, l) := tk in
  match pt, r with
  | At_connect, Connected tr pr =>
      let l := {| stop_listener := stop_listener l; transport := tr; protocol := pr |} in
      if truthy tr then
        let l := {| stop_listener := Some Remove_listener;
                    transport := tr; protocol := pr |} in
        if truthy pr then Some ((At_wait_closed, l), [Listen_once; Wait_closed])
        else
          let '(t, acts) := raised hs l AttributeError in
          Some (t, Listen_once :: acts)
      else Some (after_session config l)
  | At_wait_closed, Returned_None =>
      let a := if negb (is_stopping hs) then [Call_stop_listener] else [] in
      let '(t, acts) := after_session config l in
      Some (t, a ++ acts)
  | At_sleep, Returned_None => Some (loop_head hs l)
  | At_connect, Throw e
  | At_wait_closed, Throw e
  | At_sleep, Throw e => Some (raised hs l e)
  | At_cancel_wait, Returned_None => Some ((Finished Returned, l), [])
  | At_cancel_wait, Throw e => Some ((Finished (Propagated e), l), [])
  | _, _ => None
  end.

(** The host side, as the calls and resumptions change it.  Every call
    of [async_listen_once] registers one more listener; the listeners are
    numbered in the order of their registration, and [registered] holds
    those that the task has not removed.  [stop_listener] is assigned
    with every registration and nowhere else, so a call of
    [stop_listener()] removes the listener registered last, and does
    nothing when that one is gone already.  [conn_open] tells whether a
    connection is open. *)
Record host : Type := {
  registered : list nat;
  registrations : nat;
  conn_open : bool
}.

(** The listener registered last is still registered. *)
Definition listening (h : host) : bool :=
  match registrations h with
  | O => false
  | S k => existsb (Nat.eqb k) (registered h)
  end.

Definition host_resumed (pt : point) (r : resume) (h : host) : host :=
  match pt, r with
  | At_connect, Connected (Some _) _ =>
      {| registered := registered h; registrations := registrations h;
         conn_open := true |}
  | At_wait_closed, Returned_None
  | At_cancel_wait, Returned_None =>
      {| registered := registered h; registrations := registrations h;
         conn_open := false |}
  | _, _ => h
  end.

Definition host_called (a : action) (h : host) : host :=
  match a with
  | Listen_once =>
      {| registered := registrations h :: registered h;
         registrations := S (registrations h);
         conn_open := conn_open h |}
  | Call_stop_listener =>
      {| registered :=
           List.filter (fun i => negb (Nat.eqb i (Nat.pred (registrations h))))
                       (registered h);
         registrations := registrations h;
         conn_open := conn_open h |}
  | _ => h
  end.

Definition host_step (pt : point) (r : resume) (acts : list action) (h : host) : host :=
  fold_left (fun h a => host_called a h) acts (host_resumed pt r h).

Record run_state : Type := {
  the_task : task;
  the_host : host;
  trace : list action
}.

Definition started (hs : CoreState) : run_state :=
  let '(t, acts) := start hs in
  {| the_task := t;
     the_host := {| registered := []; registrations := 0; conn_open := false |};
     trace := acts |}.

(** What the event loop can hand over at each suspension.  The reader
    factory returns a pair or fails with a serial or OS error;
    [protocol.wait_closed()] and [asyncio.sleep] wait for an event or a
    timer and return [None]; a cancellation can arrive at every [await]. *)
Definition can_resume (pt : point) (r : resume) : bool :=
  match pt, r with
  | At_connect, Connected _ _
  | At_connect, Throw SerialException
  | At_connect, Throw OSError
  | At_connect, Throw CancelledError => true
  | At_wait_closed, Returned_None
  | At_wait_closed, Throw CancelledError => true
  | At_sleep, Returned_None
  | At_sleep, Throw CancelledError => true
  | At_cancel_wait, Returned_None
  | At_cancel_wait, Throw CancelledError => true
  | _, _ => false
  end.

(** Resume the task once for every entry, each with the [hass.state] of
    that moment; [None] when an entry does not fit the suspension. *)
Fixpoint run (config : Config) (ins : list (CoreState * resume)) (s : run_state)
  : option run_state :=
  match ins with
  | [] => Some s
  | (hs, r) :: rest =>
      if can_resume (fst (the_task s)) r then
        match step config hs (the_task s) r with
        | Some (t, acts) =>
            run config rest
              {| the_task := t;
                 the_host := host_step (fst (the_task s)) r acts (the_host s);
                 trace := trace s ++ acts |}
        | None => None
        end
      else None
  end.

Definition suspended (pt : point) : bool :=
  match pt with At_connect | At_wait_closed | At_sleep => true | _ => false end.


Definition is_sleep (a : action) : bool :=
  match a with Sleep _ => true | _ => false end.




End Supervisor.

(** ** The platform as a whole

    The supervision task and the reader share the throttled function: the
    reader calls it for every telegram it decodes while the connection is
    up, the task calls it with the empty telegram after a session. *)

Module System.
Import Supervisor.

Inductive event : Type :=
| Resumed (hs : CoreState) (r : resume)
| Telegram_read (t : Telegram).

Record system : Type := {
  supervisor : task;
  platform : Platform
}.

(** The calls of [update_entities_telegram] among the actions of a step,
    made at time [now]. *)
Fixpoint deliver (now : Z) (acts : list action) (p : Platform) : Platform :=
  match acts with
  | [] => p
  | Publish t :: rest => deliver now rest (fst (publish now t p))
  | _ :: rest => deliver now rest p
  end.

Definition boot (hs : CoreState) (devs : list DSMREntity) (options : Options) : system :=
  {| supervisor := fst (start hs); platform := setup_platform devs options |}.

Definition handle (config : Config) (now : Z) (ev : event) (s : system) : option system :=
  match ev with
  | Resumed hs r =>
      if can_resume (fst (supervisor s)) r then
        match step config hs (supervisor s) r with
        | Some (t, acts) =>
            Some {| supervisor := t; platform := deliver now acts (platform s) |}
        | None => None
        end
      else None
  | Telegram_read t =>
      match fst (supervisor s) with
      | At_wait_closed =>
          Some {| supervisor := supervisor s;
                  platform := fst (publish now t (platform s)) |}
      | _ => None
      end
  end.

Fixpoint handle_all (config : Config) (evs : list (Z * event)) (s : system)
  : option system :=
  match evs with
  | [] => Some s
  | (now, ev) :: rest =>
      match handle config now ev s with
      | Some s' => handle_all config rest s'
      | None => None
      end
  end.

End System.

(** ** The [icon] property *)

(** The icon names of [const.py], as opaque constants. *)
Inductive icon_name : Type :=
| ICON_GAS
| ICON_POWER
| ICON_POWER_FAILURE
| ICON_SWELL_SAG.

Fixpoint starts_with (needle hay : list ascii) : bool :=
  match needle, hay with
  | [], _ => true
  | a :: needle', b :: hay' => Ascii.eqb a b && starts_with needle' hay'
  | _ :: _, [] => false
  end.

Fixpoint occurs_in (needle hay : list ascii) : bool :=
  starts_with needle hay ||
  match hay with
  | [] => false
  | _ :: hay' => occurs_in needle hay'
  end.

(** [needle in hay] for two strings. *)
Definition str_in (needle hay : string) : bool :=
  occurs_in (list_ascii_of_string needle) (list_ascii_of_string hay).

(** [kw] occurs in [name] as a run of consecutive characters. *)
Definition substring (kw name : string) : Prop :=
  exists before after : string, name = before +:+ kw +:+ after.

(** What [str.replace(" ", "_")] does to one character. *)
Definition unspace (c : ascii) : ascii :=
  if Ascii.eqb c " " then "_"%char else c.

(** [icon]; falling off the end of the property returns [None]. *)
Definition icon (self : DSMREntity) : option icon_name :=
  let name := _attr_name self in
  if str_in "Sags" name || str_in "Swells" name then Some ICON_SWELL_SAG
  else if str_in "Failure" name then Some ICON_POWER_FAILURE
  else if str_in "Power" name then Some ICON_POWER
  else if str_in "Gas" name then Some ICON_GAS
  else None.

(** ** [async_setup_entry]: the devices of a config entry *)

(** The names of the parser library's OBIS references that the platform
    uses. *)
Module obis_ref.
Inductive reference : Type :=
| CURRENT_ELECTRICITY_USAGE
| CURRENT_ELECTRICITY_DELIVERY
| ELECTRICITY_ACTIVE_TARIFF
| ELECTRICITY_USED_TARIFF_1
| ELECTRICITY_USED_TARIFF_2
| ELECTRICITY_DELIVERED_TARIFF_1
| ELECTRICITY_DELIVERED_TARIFF_2
| INSTANTANEOUS_ACTIVE_POWER_L1_POSITIVE
| INSTANTANEOUS_ACTIVE_POWER_L2_POSITIVE
| INSTANTANEOUS_ACTIVE_POWER_L3_POSITIVE
| INSTANTANEOUS_ACTIVE_POWER_L1_NEGATIVE
| INSTANTANEOUS_ACTIVE_POWER_L2_NEGATIVE
| INSTANTANEOUS_ACTIVE_POWER_L3_NEGATIVE
| SHORT_POWER_FAILURE_COUNT
| LONG_POWER_FAILURE_COUNT
| VOLTAGE_SAG_L1_COUNT
| VOLTAGE_SAG_L2_COUNT
| VOLTAGE_SAG_L3_COUNT
| VOLTAGE_SWELL_L1_COUNT
| VOLTAGE_SWELL_L2_COUNT
| VOLTAGE_SWELL_L3_COUNT
| INSTANTANEOUS_VOLTAGE_L1
| INSTANTANEOUS_VOLTAGE_L2
| INSTANTANEOUS_VOLTAGE_L3
| INSTANTANEOUS_CURRENT_L1
| INSTANTANEOUS_CURRENT_L2
| INSTANTANEOUS_CURRENT_L3
| LUXEMBOURG_ELECTRICITY_USED_TARIFF_GLOBAL
| LUXEMBOURG_ELECTRICITY_DELIVERED_TARIFF_GLOBAL
| ELECTRICITY_IMPORTED_TOTAL
| HOURLY_GAS_METER_READING
| BELGIUM_HOURLY_GAS_METER_READING
| GAS_METER_READING.
End obis_ref.

(** The keys of [entry.data] that the setup reads besides those an entity
    reads: the serial identifiers and the connection. *)
Record Entry : Type := {
  data : Config;
  serial_id : string;
  serial_id_gas : option string;
  conf_host : option string;
  conf_port : string
}.

(** The list of name, obis, force_update mappings, with its extension for
    the protocol version. *)
Definition obis_mapping (version : string) : list (string * obis_ref.reference * bool) :=
  [ ("Power Consumption", obis_ref.CURRENT_ELECTRICITY_USAGE, true);
    ("Power Production", obis_ref.CURRENT_ELECTRICITY_DELIVERY, true);
    ("Power Tariff", obis_ref.ELECTRICITY_ACTIVE_TARIFF, false);
    ("Energy Consumption (tarif 1)", obis_ref.ELECTRICITY_USED_TARIFF_1, true);
    ("Energy Consumption (tarif 2)", obis_ref.ELECTRICITY_USED_TARIFF_2, true);
    ("Energy Production (tarif 1)", obis_ref.ELECTRICITY_DELIVERED_TARIFF_1, true);
    ("Energy Production (tarif 2)", obis_ref.ELECTRICITY_DELIVERED_TARIFF_2, true);
    ("Power Consumption Phase L1", obis_ref.INSTANTANEOUS_ACTIVE_POWER_L1_POSITIVE, false);
    ("Power Consumption Phase L2", obis_ref.INSTANTANEOUS_ACTIVE_POWER_L2_POSITIVE, false);
    ("Power Consumption Phase L3", obis_ref.INSTANTANEOUS_ACTIVE_POWER_L3_POSITIVE, false);
    ("Power Production Phase L1", obis_ref.INSTANTANEOUS_ACTIVE_POWER_L1_NEGATIVE, false);
    ("Power Production Phase L2", obis_ref.INSTANTANEOUS_ACTIVE_POWER_L2_NEGATIVE, false);
    ("Power Production Phase L3", obis_ref.INSTANTANEOUS_ACTIVE_POWER_L3_NEGATIVE, false);
    ("Short Power Failure Count", obis_ref.SHORT_POWER_FAILURE_COUNT, false);
    ("Long Power Failure Count", obis_ref.LONG_POWER_FAILURE_COUNT, false);
    ("Voltage Sags Phase L1", obis_ref.VOLTAGE_SAG_L1_COUNT, false);
    ("Voltage Sags Phase L2", obis_ref.VOLTAGE_SAG_L2_COUNT, false);
    ("Voltage Sags Phase L3", obis_ref.VOLTAGE_SAG_L3_COUNT, false);
    ("Voltage Swells Phase L1", obis_ref.VOLTAGE_SWELL_L1_COUNT, false);
    ("Voltage Swells Phase L2", obis_ref.VOLTAGE_SWELL_L2_COUNT, false);
    ("Voltage Swells Phase L3", obis_ref.VOLTAGE_SWELL_L3_COUNT, false);
    ("Voltage Phase L1", obis_ref.INSTANTANEOUS_VOLTAGE_L1, false);
    ("Voltage Phase L2", obis_ref.INSTANTANEOUS_VOLTAGE_L2, false);
    ("Voltage Phase L3", obis_ref.INSTANTANEOUS_VOLTAGE_L3, false);
    ("Current Phase L1", obis_ref.INSTANTANEOUS_CURRENT_L1, false);
    ("Current Phase L2", obis_ref.INSTANTANEOUS_CURRENT_L2, false);
    ("Current Phase L3", obis_ref.INSTANTANEOUS_CURRENT_L3, false) ]
  ++ (if String.eqb version "5L"
      then [ ("Energy Consumption (total)",
              obis_ref.LUXEMBOURG_ELECTRICITY_USED_TARIFF_GLOBAL, true);
             ("Energy Production (total)",
              obis_ref.LUXEMBOURG_ELECTRICITY_DELIVERED_TARIFF_GLOBAL, true) ]
      else [ ("Energy Consumption (total)", obis_ref.ELECTRICITY_IMPORTED_TOTAL, true) ]).

(** [dsmr_version in (...)] *)
Definition version_in (version : string) (versions : list string) : bool :=
  existsb (String.eqb version) versions.

(** The gas reading's reference for a protocol version. *)
Definition gas_obis (version : string) : obis_ref.reference :=
  if version_in version ["4"; "5"; "5L"] then obis_ref.HOURLY_GAS_METER_READING
  else if version_in version ["5B"] then obis_ref.BELGIUM_HOURLY_GAS_METER_READING
  else obis_ref.GAS_METER_READING.

(** The connection a reader is created for. *)
Inductive reader : Type :=
| Tcp_reader (host port version : string) (keep_alive_interval : Z)
| Serial_reader (port version : string).

Section Setup.

(** The pattern strings of the parser library's references and the two
    device names of [const.py] are parameters of the setup. *)
Variable lib : obis_ref.reference -> string.
Variables DEVICE_NAME_ENERGY DEVICE_NAME_GAS : string.

(** The [devices] of [async_setup_entry]. *)
Definition setup_devices (entry : Entry) : list DSMREntity :=
  let config := data entry in
  let version := dsmr_version config in
  let devices :=
    map (fun '(name, obis, force_update) =>
           __init__ name DEVICE_NAME_ENERGY (serial_id entry) (lib obis)
             config force_update)
        (obis_mapping version) in
  match serial_id_gas entry with
  | Some gas_serial =>
      devices ++
      [ __init__ "Gas Consumption" DEVICE_NAME_GAS gas_serial
          (lib (gas_obis version)) config true ]
  | None => devices
  end.

(** [reader_factory] *)
Definition reader_factory (entry : Entry) : reader :=
  match conf_host entry with
  | Some h => Tcp_reader h (conf_port entry) (dsmr_version (data entry)) 60
  | None => Serial_reader (conf_port entry) (dsmr_version (data entry))
  end.

(** The devices and the throttle that [async_setup_entry] leaves behind. *)
Definition async_setup_entry (entry : Entry) (options : Options) : Platform :=
  setup_platform (setup_devices entry) options.

End Setup.

(** ** Observations on a trace of the supervision task *)

Module Trace.
Import Supervisor.

(** The calls of the throttled function and the sleeps of the trace come
    in pairs only: a call with the empty telegram, directly followed by a
    sleep of [seconds]; [after_publish] tells that the sleep is due next. *)
Fixpoint paced_from (seconds : Z) (after_publish : bool) (acts : list action) : bool :=
  match acts with
  | [] => negb after_publish
  | a :: rest =>
      if after_publish then
        match a with
        | Sleep n => (n =? seconds) && paced_from seconds false rest
        | _ => false
        end
      else
        match a with
        | Publish t => bool_decide (t = ∅) && paced_from seconds true rest
        | Sleep _ => false
        | _ => paced_from seconds false rest
        end
  end.

Definition paced (seconds : Z) (acts : list action) : bool :=
  paced_from seconds false acts.

Definition is_listen_once (a : action) : bool :=
  match a with Listen_once => true | _ => false end.

Definition is_call_stop_listener (a : action) : bool :=
  match a with Call_stop_listener => true | _ => false end.

Definition count (f : action -> bool) (acts : list action) : nat :=
  length (List.filter f acts).

(** An entry the event loop makes while Home Assistant is not stopping,
    that is no cancellation, and in which the reader factory returns a
    protocol with every transport. *)
Definition plain (i : CoreState * resume) : bool :=
  negb (state_is_stopping (fst i)) &&
  match snd i with
  | Throw CancelledError => false
  | Connected (Some _) None => false
  | _ => true
  end.

End Trace.

(** All devices store one and the same telegram. *)
Definition uniform (p : Platform) : Prop :=
  exists t : Telegram, Forall (fun d => telegram d = t) (devices p).

(** All devices store the empty telegram. *)
Definition cleared (p : Platform) : Prop :=
  Forall (fun d => telegram d = ∅) (devices p).

(** ** Sample data

    Concrete views, telegrams and event sequences on which the properties
    below are instantiated. *)

Import Supervisor System.

Definition sample_config : Config :=
  {| dsmr_version := "5"; precision := None;
     reconnect_interval := DEFAULT_RECONNECT_INTERVAL |}.

Definition sample_obis : string := "\d-\d:1\.7\.0.+?\r\n".

Definition sample_view : DSMREntity :=
  __init__ "Power Consumption" "Electricity Meter" "4530303" sample_obis
    sample_config true.


Definition value_only_telegram : Telegram :=
  {[ sample_obis := {[ "value" := Attr (PDecimal 1234 (-3)) ]} ]}.

Definition belgium_config : Config :=
  {| dsmr_version := "5B"; precision := None;
     reconnect_interval := DEFAULT_RECONNECT_INTERVAL |}.

Definition tariff_view (config : Config) (code : pyval) : DSMREntity :=
  fst (update_data
         (__init__ "Power Tariff" "Electricity Meter" "4530303"
            ELECTRICITY_ACTIVE_TARIFF config false)
         {[ ELECTRICITY_ACTIVE_TARIFF := {[ "value" := Attr code ]} ]}).


(** A view whose field object has a [value] property that raises, as the
    parser's objects do when they hold no values. *)
Definition broken_reading : DSMREntity :=
  fst (update_data sample_view
         {[ sample_obis := {[ "value" := Raises IndexError; "unit" := Raises KeyError ]} ]}).



Definition half_minute : Options := {| time_between_update := Some 30 |}.

Definition reading_telegram (i : Z) : Telegram :=
  {[ sample_obis := {[ "value" := Attr (PInt i) ]} ]}.

Definition sample_platform : Platform := setup_platform [sample_view] half_minute.

(** The task right after a successful connect. *)
Definition connected_state : run_state :=
  {| the_task := (At_wait_closed,
                  {| stop_listener := Some Remove_listener;
                     transport := Some 1%nat; protocol := Some 1%nat |});
     the_host := {| registered := [0%nat]; registrations := 1; conn_open := true |};
     trace := [Call_reader_factory; Listen_once; Wait_closed] |}.

(** The task in its second session, when Home Assistant was in its final
    write all along: the first session ended without a call of
    [stop_listener()]. *)
Definition second_session : run_state :=
  {| the_task := (At_wait_closed,
                  {| stop_listener := Some Remove_listener;
                     transport := Some 2%nat; protocol := Some 2%nat |});
     the_host := {| registered := [1%nat; 0%nat]; registrations := 2;
                    conn_open := true |};
     trace := [Call_reader_factory; Listen_once; Wait_closed;
               Publish ∅; Sleep 30;
               Call_reader_factory; Listen_once; Wait_closed] |}.

Definition attached_view : DSMREntity := set_hass sample_view (Some Hass).

Definition later_telegram : Telegram :=
  {[ sample_obis := {[ "value" := Attr (PDecimal 5678 (-3)) ]} ]}.

(** A session that delivers one telegram at second 1 and loses its
    connection at second 5. *)
Definition short_session : list (Z * event) :=
  [(0, Resumed running (Connected (Some 1%nat) (Some 1%nat)));
   (1, Telegram_read value_only_telegram);
   (5, Resumed running Returned_None)].

(** The reconnect after the sleep, and the first telegram of the new
    session. *)
Definition reconnect : list (Z * event) :=
  [(35, Resumed running Returned_None);
   (36, Resumed running (Connected (Some 2%nat) (Some 2%nat)));
   (37, Telegram_read later_telegram)].

(** A stand-in for the parser library's table: every reference under its
    own name. *)
Definition sample_lib (r : obis_ref.reference) : string :=
  match r with
  | obis_ref.ELECTRICITY_ACTIVE_TARIFF => ELECTRICITY_ACTIVE_TARIFF
  | obis_ref.CURRENT_ELECTRICITY_USAGE => sample_obis
  | obis_ref.HOURLY_GAS_METER_READING => "HOURLY_GAS_METER_READING"
  | obis_ref.BELGIUM_HOURLY_GAS_METER_READING => "BELGIUM_HOURLY_GAS_METER_READING"
  | obis_ref.GAS_METER_READING => "GAS_METER_READING"
  | _ => "OTHER_REFERENCE"
  end.

Definition sample_entry : Entry :=
  {| data := belgium_config;
     serial_id := "4530303";
     serial_id_gas := Some "4730303";
     conf_host := None;
     conf_port := "/dev/ttyUSB0" |}.

(** * Properties of the reading views *)

Example float_literal_ok :
  map float_literal ["1.23456"; " -1_000.5e+3 "; ".5"; "7."; "NaN"; "+Infinity"]
  = [true; true; true; true; true; true].
Proof. vm_compute. reflexivity. Qed.

Example float_literal_space :
  map float_literal
    [String (ascii_of_nat 28) "1.5"; String (ascii_of_nat 11) "1.5";
     String (ascii_of_nat 160) "1.5"; String (ascii_of_nat 233) "1.5"]
  = [false; true; true; false].
Proof. vm_compute. reflexivity. Qed.

Example round_near_the_largest_float :
  map (fun '(v, n) => round v n)
    [(PStr "1.7e308", -308); (PStr "1.4e308", -308); (PStr "1.7e308", -309);
     (PDecimal 179 306, -307); (PStr "inf", -3); (PStr "1.7976931348623157e308", 0)]
  = [Raise OverflowError; Ret (PRound (PStr "1.4e308") (-308));
     Ret (PRound (PStr "1.7e308") (-309)); Raise OverflowError;
     Ret (PRound (PStr "inf") (-3)); Ret (PRound (PStr "1.7976931348623157e308") 0)].
Proof. vm_compute. reflexivity. Qed.

Example float_literal_bad :
  map float_literal ["abc"; ""; "1_.5"; "1e"; "."; "1 2"; "0x10"; "--1"]
  = [false; false; false; false; false; false; false; false].
Proof. vm_compute. reflexivity. Qed.


Section Float_sizes.
Local Open Scope Q_scope.











End Float_sizes.



Section Views.
Implicit Types (self : DSMREntity) (t : Telegram) (obj : DSMRObject).

Lemma obis_in_spec self :
  obis_in self = true <-> is_Some (telegram self !! _obis self).
Proof. unfold obis_in. apply bool_decide_eq_true. Qed.

Lemma get_attr_absent self (attribute : string) :
  telegram self !! _obis self = None ->
  get_dsmr_object_attr self attribute = Ret PNone.
Proof.
  intros H. unfold get_dsmr_object_attr.
  destruct (obis_in self) eqn:E; [|reflexivity].
  apply obis_in_spec in E. rewrite H in E. destruct E as [? E]. discriminate E.
Qed.

Lemma get_attr_present self (attribute : string) obj :
  telegram self !! _obis self = Some obj ->
  get_dsmr_object_attr self attribute = getattr obj attribute PNone.
Proof.
  intros H. unfold get_dsmr_object_attr.
  destruct (obis_in self) eqn:E; simpl.
  - now rewrite H.
  - assert (obis_in self = true) as E' by (apply obis_in_spec; rewrite H; eauto).
    congruence.
Qed.

Lemma translate_tariff_none (version : string) :
  translate_tariff PNone version = PNone.
Proof. unfold translate_tariff. destruct (String.eqb version "5B"); reflexivity. Qed.

Lemma state_of_none self :
  get_dsmr_object_attr self "value" = Ret PNone -> state self = Ret PNone.
Proof.
  intros H. unfold state. rewrite H.
  destruct (String.eqb (_obis self) ELECTRICITY_ACTIVE_TARIFF).
  - now rewrite translate_tariff_none.
  - reflexivity.
Qed.

Lemma update_data_telegram self t : telegram (fst (update_data self t)) = t.
Proof. unfold update_data. destruct (_ && _); reflexivity. Qed.

Lemma update_data_obis self t : _obis (fst (update_data self t)) = _obis self.
Proof. unfold update_data. destruct (_ && _); reflexivity. Qed.

Lemma update_data_fst self t : fst (update_data self t) = set_telegram self t.
Proof. unfold update_data. destruct (_ && _); reflexivity. Qed.

Lemma update_data_notified self t :
  snd (update_data self t) = true <->
  is_Some (hass self) /\ is_Some (t !! _obis self).
Proof.
  unfold update_data, obis_in. simpl.
  destruct (bool_decide (is_Some (hass self))) eqn:E1;
    destruct (bool_decide (is_Some (t !! _obis self))) eqn:E2; simpl;
    try apply bool_decide_eq_true in E1; try apply bool_decide_eq_false in E1;
    try apply bool_decide_eq_true in E2; try apply bool_decide_eq_false in E2;
    split; try tauto; try discriminate.
Qed.

End Views.

(** C7. A view whose field identifier is not a key of its stored telegram
    reads as absent: [state] returns [None] without raising and
    [unit_of_measurement] is [None].  The telegram a fresh view starts
    with and the empty telegram of a disconnect are such telegrams. *)
Theorem absent_field_reads_none (self : DSMREntity) :
  telegram self !! _obis self = None ->
  state self = Ret PNone /\ unit_of_measurement self = Ret PNone.
Proof.
  intros H. split.
  - apply state_of_none. now apply get_attr_absent.
  - now apply get_attr_absent.
Qed.

Lemma absent_field_reads_none_witness :
  (telegram sample_view !! _obis sample_view = None /\
   state sample_view = Ret PNone /\ unit_of_measurement sample_view = Ret PNone) /\
  (let cleared := fst (update_data sample_view ∅) in
   state cleared = Ret PNone /\ unit_of_measurement cleared = Ret PNone).
Proof.
  split.
  - split; [reflexivity|].
    apply (absent_field_reads_none sample_view). reflexivity.
  - apply (absent_field_reads_none (fst (update_data sample_view ∅))). reflexivity.
Defined.



(** C9 as stated fails: the reads are not total over arbitrary field
    objects.  For an object whose [value] and [unit] getters raise, the
    lookup, [state] and [unit_of_measurement] raise what the getter
    raises: the default of [getattr] is for a missing attribute only. *)
Lemma field_object_getter_raises :
  is_Some (telegram broken_reading !! _obis broken_reading) /\
  get_dsmr_object_attr broken_reading "value" = Raise IndexError /\
  state broken_reading = Raise IndexError /\
  unit_of_measurement broken_reading = Raise KeyError /\
  (forall v, state broken_reading <> Ret v) /\
  (forall v, unit_of_measurement broken_reading <> Ret v).
Proof.
  split; [vm_compute; eauto|].
  split; [reflexivity|]. split; [reflexivity|]. split; [reflexivity|].
  split; intros v; discriminate.
Qed.

Lemma eq_str_spec (v : pyval) (s : string) : eq_str v s = true <-> v = PStr s.
Proof.
  destruct v; simpl; split; try discriminate.
  - intros H. apply String.eqb_eq in H. now subst.
  - intros [= ->]. apply String.eqb_refl.
Qed.

Lemma eq_str_false (v : pyval) (s : string) : v <> PStr s -> eq_str v s = false.
Proof.
  intros H. destruct (eq_str v s) eqn:E; [|reflexivity].
  apply eq_str_spec in E. contradiction.
Qed.

Lemma translate_tariff_other (raw : pyval) (version : string) :
  raw <> PStr "0001" -> raw <> PStr "0002" ->
  translate_tariff raw version = PNone.
Proof.
  intros H1 H2. unfold translate_tariff.
  destruct (String.eqb version "5B"); cbv zeta;
    rewrite ?(eq_str_false raw "0001" H1), ?(eq_str_false raw "0002" H2);
    rewrite ?(eq_str_false raw "0001" H1), ?(eq_str_false raw "0002" H2);
    reflexivity.
Qed.

(** C6. Tariff translation.  For a dialect other than "5B", raw "0001"
    gives "low" and raw "0002" gives "normal"; for "5B" the two codes are
    swapped first, so "0001" gives "normal" and "0002" gives "low"; every
    other raw value, [None] included, gives [None].  The state of the view
    bound to the active-tariff field is this translation of its raw
    value under the configured dialect. *)
Theorem tariff_translation (version : string) :
  (version <> "5B" ->
     translate_tariff (PStr "0001") version = PStr "low" /\
     translate_tariff (PStr "0002") version = PStr "normal") /\
  (version = "5B" ->
     translate_tariff (PStr "0001") version = PStr "normal" /\
     translate_tariff (PStr "0002") version = PStr "low") /\
  (forall raw : pyval, raw <> PStr "0001" -> raw <> PStr "0002" ->
     translate_tariff raw version = PNone) /\
  translate_tariff PNone version = PNone /\
  (forall self : DSMREntity,
     _obis self = ELECTRICITY_ACTIVE_TARIFF ->
     dsmr_version (_config self) = version ->
     state self =
       match get_dsmr_object_attr self "value" with
       | Ret raw => Ret (translate_tariff raw version)
       | Raise e => Raise e
       end).
Proof.
  split; [|split; [|split; [|split]]].
  - intros H. apply String.eqb_neq in H. unfold translate_tariff.
    rewrite H. split; reflexivity.
  - intros ->. split; reflexivity.
  - intros raw. apply translate_tariff_other.
  - apply translate_tariff_none.
  - intros self Hobis Hver. unfold state.
    destruct (get_dsmr_object_attr self "value"); [|reflexivity].
    rewrite Hobis, String.eqb_refl, Hver. reflexivity.
Qed.

Lemma tariff_translation_witness :
  (translate_tariff (PStr "0001") "5" = PStr "low" /\
   translate_tariff (PStr "0002") "5" = PStr "normal") /\
  (translate_tariff (PStr "0001") "5B" = PStr "normal" /\
   translate_tariff (PStr "0002") "5B" = PStr "low") /\
  translate_tariff (PStr "0003") "5B" = PNone /\
  state (tariff_view belgium_config (PStr "0001")) = Ret (PStr "normal") /\
  state (tariff_view sample_config (PStr "0001")) = Ret (PStr "low").
Proof.
  split; [|split; [|split; [|split]]].
  - apply (proj1 (tariff_translation "5")). discriminate.
  - apply (proj1 (proj2 (tariff_translation "5B"))). reflexivity.
  - apply (proj1 (proj2 (proj2 (tariff_translation "5B")))); discriminate.
  - exact (proj2 (proj2 (proj2 (proj2 (tariff_translation "5B"))))
             (tariff_view belgium_config (PStr "0001")) eq_refl eq_refl).
  - exact (proj2 (proj2 (proj2 (proj2 (tariff_translation "5"))))
             (tariff_view sample_config (PStr "0001")) eq_refl eq_refl).
Defined.





(** C8, as the code has it.  [update_data] always replaces the stored
    telegram by the new one and changes nothing else; it writes the state
    exactly when the view is attached ([hass] set) and the field
    identifier is a key of the new telegram.  For an attached view this is
    exactly when the field is present; when the field is absent nothing
    is written and the telegram is stored all the same. *)
Theorem update_data_effect (self : DSMREntity) (t : Telegram) :
  fst (update_data self t) = set_telegram self t /\
  telegram (fst (update_data self t)) = t /\
  (snd (update_data self t) = true <->
     is_Some (hass self) /\ is_Some (t !! _obis self)) /\
  (is_Some (hass self) ->
     (snd (update_data self t) = true <-> is_Some (t !! _obis self))) /\
  (t !! _obis self = None -> snd (update_data self t) = false).
Proof.
  pose proof (update_data_notified self t) as Hn.
  split; [apply update_data_fst|].
  split; [apply update_data_telegram|].
  split; [exact Hn|]. split.
  - intros Hh. rewrite Hn. tauto.
  - intros Habs. destruct (snd (update_data self t)) eqn:E; [|reflexivity].
    apply update_data_notified in E. destruct E as [_ [x Hx]]. congruence.
Qed.

(** C8 as stated fails: the field is present in the new telegram, yet a
    view that is not attached writes no state. *)
Lemma present_field_without_notification :
  is_Some (value_only_telegram !! _obis sample_view) /\
  snd (update_data sample_view value_only_telegram) = false /\
  ~ (snd (update_data sample_view value_only_telegram) = true <->
     is_Some (value_only_telegram !! _obis sample_view)).
Proof.
  assert (is_Some (value_only_telegram !! _obis sample_view)) as Hp
    by (vm_compute; eauto).
  split; [exact Hp|]. split; [reflexivity|].
  intros [_ H]. specialize (H Hp). discriminate H.
Qed.

(** C10. While [hass] is unset, [update_data] writes no state even when
    the field is in the telegram; the telegram is stored, and once the
    view is attached its reads are those of the stored telegram. *)
Theorem unattached_view_is_silent (self : DSMREntity) (t : Telegram) :
  hass self = None ->
  snd (update_data self t) = false /\
  telegram (fst (update_data self t)) = t /\
  (forall h : HomeAssistant,
     let attached := set_hass (fst (update_data self t)) (Some h) in
     telegram attached = t /\
     state attached = state (set_telegram self t) /\
     forall attribute : string,
       get_dsmr_object_attr attached attribute =
       match t !! _obis self with
       | Some obj => getattr obj attribute PNone
       | None => Ret PNone
       end).
Proof.
  intros Hh. split; [|split].
  - destruct (snd (update_data self t)) eqn:E; [|reflexivity].
    apply update_data_notified in E. rewrite Hh in E.
    destruct E as [[x Hx] _]. discriminate Hx.
  - apply update_data_telegram.
  - intros h attached. subst attached. rewrite update_data_fst.
    split; [reflexivity|]. split; [reflexivity|].
    intros attribute.
    destruct (t !! _obis self) as [obj|] eqn:E.
    + apply get_attr_present. exact E.
    + apply get_attr_absent. exact E.
Qed.

Lemma unattached_view_is_silent_witness :
  snd (update_data sample_view value_only_telegram) = false /\
  state (set_hass (fst (update_data sample_view value_only_telegram)) (Some Hass))
  = Ret (PRound (PDecimal 1234 (-3)) 2).
Proof.
  pose proof (unattached_view_is_silent sample_view value_only_telegram eq_refl)
    as [H1 [_ H3]].
  split; [exact H1|].
  destruct (H3 Hass) as [_ [H4 _]]. rewrite H4. reflexivity.
Defined.

(** * Properties of the throttled fan-out *)

Section Fan_out.
Implicit Types (p : Platform) (t : Telegram) (now : Z).

Lemma update_entities_telegram_stores (devs : list DSMREntity) t :
  Forall (fun d => telegram d = t) (fst (update_entities_telegram devs t)).
Proof.
  unfold update_entities_telegram. simpl.
  induction devs as [|d devs IH]; simpl; constructor.
  - apply update_data_telegram.
  - exact IH.
Qed.

Lemma publish_dropped now t p :
  is_throttled (throttle p) now = true -> publish now t p = (p, None).
Proof. intros H. unfold publish. now rewrite H. Qed.

Lemma publish_forwards now t p :
  is_throttled (throttle p) now = false ->
  publish now t p =
    ({| devices := fst (update_entities_telegram (devices p) t);
        throttle := {| min_time := min_time (throttle p); last_call := Some now |} |},
     Some (snd (update_entities_telegram (devices p) t))).
Proof. intros H. unfold publish. now rewrite H. Qed.

Lemma publish_min_time now t p :
  min_time (throttle (fst (publish now t p))) = min_time (throttle p).
Proof. unfold publish. destruct (is_throttled _ _); reflexivity. Qed.

Lemma is_throttled_false (th : Throttle) now :
  is_throttled th now = false <->
  forall t0 : Z, last_call th = Some t0 -> min_time th < now - t0.
Proof.
  unfold is_throttled. destruct (last_call th) as [t0|].
  - rewrite Z.leb_gt. split.
    + intros H t1 [= <-]. exact H.
    + intros H. now apply H.
  - split; [intros _ t0 H; discriminate H | reflexivity].
Qed.

Lemma is_throttled_true (th : Throttle) now :
  is_throttled th now = true <->
  exists t0 : Z, last_call th = Some t0 /\ now - t0 <= min_time th.
Proof.
  unfold is_throttled. destruct (last_call th) as [t0|].
  - rewrite Z.leb_le. split.
    + intros H. eauto.
    + intros [t1 [[= <-] H]]. exact H.
  - split; [discriminate | intros [t0 [H _]]; discriminate H].
Qed.

(** The forwarded calls are more than the interval apart, pairwise, and
    more than the interval after the call forwarded last before them. *)
Lemma forwarded_spaced (pubs : list (Z * Telegram)) p :
  0 <= min_time (throttle p) ->
  StronglySorted (fun a b => min_time (throttle p) < fst b - fst a) (forwarded pubs p) /\
  Forall (fun x => forall t0 : Z, last_call (throttle p) = Some t0 ->
                             min_time (throttle p) < fst x - t0)
         (forwarded pubs p).
Proof.
  revert p. induction pubs as [|[now t] rest IH]; intros p Hmin; simpl.
  - split; constructor.
  - destruct (is_throttled (throttle p) now) eqn:E.
    + rewrite (publish_dropped now t p E). apply IH. exact Hmin.
    + rewrite (publish_forwards now t p E).
      set (p' := {| devices := _; throttle := _ |}).
      destruct (IH p' Hmin) as [Hs Hf]. simpl in Hs, Hf.
      pose proof (proj1 (is_throttled_false _ _) E) as E'. clear E.
      rename E' into E. split.
      * constructor; [exact Hs|].
        eapply Forall_impl; [exact Hf|]. simpl. intros x Hx. now apply Hx.
      * constructor; [exact E|].
        eapply Forall_impl; [exact Hf|]. simpl. intros x Hx t0 Ht0.
        specialize (Hx now eq_refl). specialize (E t0 Ht0). lia.
Qed.

Lemma forwarded_sublist (pubs : list (Z * Telegram)) p :
  sublist (forwarded pubs p) pubs.
Proof.
  revert p. induction pubs as [|[now t] rest IH]; intros p; simpl.
  - constructor.
  - destruct (publish now t p) as [p' [n|]].
    + apply sublist_skip, IH.
    + apply sublist_cons, IH.
Qed.

Lemma publish_all_last_call (pubs : list (Z * Telegram)) p (t1 : Z) :
  last_call (throttle (publish_all pubs p)) = Some t1 ->
  last_call (throttle p) = Some t1 \/ exists t, In (t1, t) pubs.
Proof.
  revert p. induction pubs as [|[now t] rest IH]; intros p H; simpl in *.
  - now left.
  - apply IH in H. destruct H as [H|[t' H]].
    + destruct (is_throttled (throttle p) now) eqn:E.
      * rewrite (publish_dropped now t p E) in H. now left.
      * rewrite (publish_forwards now t p E) in H. simpl in H.
        injection H as <-. right. exists t. now left.
    + right. exists t'. now right.
Qed.

Lemma publish_all_min_time (pubs : list (Z * Telegram)) p :
  min_time (throttle (publish_all pubs p)) = min_time (throttle p).
Proof.
  revert p. induction pubs as [|[now t] rest IH]; intros p; simpl.
  - reflexivity.
  - rewrite IH. apply publish_min_time.
Qed.

End Fan_out.

Lemma forwarded_app (pubs more : list (Z * Telegram)) (p : Platform) :
  forwarded (pubs ++ more) p = forwarded pubs p ++ forwarded more (publish_all pubs p).
Proof.
  revert p. induction pubs as [|[now t] rest IH]; intros p; simpl.
  - reflexivity.
  - destruct (publish now t p) as [p' [n|]]; simpl; now rewrite IH.
Qed.

Lemma quiet_period_not_throttled
    (pubs : list (Z * Telegram)) (p : Platform) (now : Z) :
  (forall t0 : Z, last_call (throttle p) = Some t0 -> min_time (throttle p) < now - t0) ->
  Forall (fun x => min_time (throttle p) < now - fst x) pubs ->
  is_throttled (throttle (publish_all pubs p)) now = false.
Proof.
  intros Hlast Hquiet. apply is_throttled_false. intros t0 Ht0.
  rewrite publish_all_min_time.
  apply publish_all_last_call in Ht0. destruct Ht0 as [H|[t H]].
  - now apply Hlast.
  - rewrite Forall_forall in Hquiet. apply list_elem_of_In in H.
    apply (Hquiet (t0, t) H).
Qed.

(** C2. The throttled fan-out, for a platform whose interval is not
    negative.  (1) Of any sequence of calls, the forwarded ones are a
    subsequence, each with the telegram of its own call, and any two of
    them are more than the interval apart.  (2) A call that comes more
    than the interval after every earlier call is forwarded at once: every
    device then stores exactly the telegram of that call.  (3) A call
    inside the window after a forwarded call is dropped and leaves the
    platform as it was, so nothing of it is kept for later.  (4) The
    interval is 30 when none is configured, and with an interval of 30,
    calls at 0, 1, ..., 29 and then at 31 forward the telegrams of 0 and
    of 31 only. *)
Theorem throttle_semantics (p : Platform) :
  0 <= min_time (throttle p) ->
  (forall pubs : list (Z * Telegram),
     sublist (forwarded pubs p) pubs /\
     StronglySorted (fun a b => min_time (throttle p) < fst b - fst a)
       (forwarded pubs p)) /\
  (forall (pubs : list (Z * Telegram)) (now : Z) (t : Telegram),
     (forall t0 : Z, last_call (throttle p) = Some t0 ->
                     min_time (throttle p) < now - t0) ->
     Forall (fun x => min_time (throttle p) < now - fst x) pubs ->
     let q := publish_all pubs p in
     (exists notified, snd (publish now t q) = Some notified) /\
     Forall (fun d => telegram d = t) (devices (fst (publish now t q))) /\
     last_call (throttle (fst (publish now t q))) = Some now /\
     forwarded (pubs ++ [(now, t)]) p = forwarded pubs p ++ [(now, t)]) /\
  (forall (pubs : list (Z * Telegram)) (now t0 : Z) (t : Telegram),
     let q := publish_all pubs p in
     last_call (throttle q) = Some t0 ->
     now - t0 <= min_time (throttle p) ->
     publish now t q = (q, None) /\
     forall later, forwarded ((now, t) :: later) q = forwarded later q) /\
  (forall (devs : list DSMREntity) (tele : Z -> Telegram),
     min_time (throttle (setup_platform devs {| time_between_update := None |})) = 30 /\
     forwarded (((fun i => (i, tele i)) <$> seqZ 0 30) ++ [(31, tele 31)])
       (setup_platform devs half_minute)
     = [(0, tele 0); (31, tele 31)]).
Proof.
  intros Hmin. split; [|split; [|split]].
  - intros pubs. split.
    + apply forwarded_sublist.
    + apply (forwarded_spaced pubs p Hmin).
  - intros pubs now t Hlast Hquiet q.
    pose proof (quiet_period_not_throttled pubs p now Hlast Hquiet) as E.
    fold q in E.
    assert (forwarded (pubs ++ [(now, t)]) p = forwarded pubs p ++ [(now, t)]) as Hfw.
    { rewrite forwarded_app. fold q. simpl.
      rewrite (publish_forwards now t q E). reflexivity. }
    rewrite (publish_forwards now t q E). simpl.
    split; [eauto|]. split; [apply update_entities_telegram_stores|].
    split; [reflexivity|exact Hfw].
  - intros pubs now t0 t q Hlast Hin.
    assert (is_throttled (throttle q) now = true) as E.
    { apply is_throttled_true. exists t0. split; [exact Hlast|].
      unfold q. now rewrite publish_all_min_time. }
    split; [now apply publish_dropped|].
    intros later. simpl. now rewrite (publish_dropped now t q E).
  - intros devs tele. split; vm_compute; reflexivity.
Qed.

Lemma throttle_semantics_witness :
  (0 <= min_time (throttle sample_platform)) /\
  snd (publish 30 (reading_telegram 30)
         (publish_all [(0, reading_telegram 0)] sample_platform)) = None /\
  Forall (fun d => telegram d = reading_telegram 31)
    (devices (fst (publish 31 (reading_telegram 31)
                     (publish_all [(0, reading_telegram 0)] sample_platform)))).
Proof.
  assert (0 <= min_time (throttle sample_platform)) as Hmin by (vm_compute; discriminate).
  pose proof (throttle_semantics sample_platform Hmin) as [_ [Hquiet [Hdrop _]]].
  split; [exact Hmin|]. split.
  - specialize (Hdrop [(0, reading_telegram 0)] 30 0 (reading_telegram 30) eq_refl).
    destruct Hdrop as [Hd _]; [vm_compute; discriminate|].
    rewrite Hd. reflexivity.
  - specialize (Hquiet [(0, reading_telegram 0)] 31 (reading_telegram 31)).
    destruct Hquiet as [_ [Hs _]].
    + intros t0 H. discriminate H.
    + constructor; [vm_compute; reflexivity|constructor].
    + exact Hs.
Defined.

(** * Properties of the supervision coroutine *)

Module Supervisor_facts.
Import Supervisor.











End Supervisor_facts.

Import Supervisor_facts.

(** C1, evaluated on the code.  When the reader factory fails with a
    serial or OS error while the host is not stopping, the handler logs
    the error and the loop calls the reader factory again in the same
    step: the step makes no [Sleep] call between the failed attempt
    and the next one.  The task stays suspended at the connect, so the
    failure does not end it. *)
Theorem failed_open_retries_without_sleep
    (config : Config) (hs : CoreState) (l : locals) (e : signal) :
  e = SerialException \/ e = OSError ->
  state_is_stopping hs = false ->
  step config hs (At_connect, l) (Throw e)
  = Some ((At_connect, clear_connection l), [Log_exception; Call_reader_factory]) /\
  forall t acts, step config hs (At_connect, l) (Throw e) = Some (t, acts) ->
                 Forall (fun a => is_sleep a = false) acts.
Proof.
  intros He Hhs.
  assert (step config hs (At_connect, l) (Throw e)
          = Some ((At_connect, clear_connection l), [Log_exception; Call_reader_factory]))
    as Hstep.
  { destruct He as [-> | ->]; simpl; unfold except_io, loop_head;
      rewrite Hhs; reflexivity. }
  split; [exact Hstep|].
  intros t acts H. rewrite Hstep in H. injection H as <- <-.
  repeat constructor.
Qed.

Lemma failed_open_retries_without_sleep_witness :
  step sample_config running (At_connect, initial_locals) (Throw OSError)
  = Some ((At_connect, initial_locals), [Log_exception; Call_reader_factory]).
Proof.
  apply (failed_open_retries_without_sleep sample_config running initial_locals OSError).
  - right. reflexivity.
  - reflexivity.
Defined.

(** Two failed opens in a row: three calls of the reader factory and no
    sleep anywhere in the trace. *)
Example two_failed_opens :
  trace <$> run sample_config
              [(running, Throw OSError); (running, Throw SerialException)]
              (started running)
  = Some [Call_reader_factory; Log_exception; Call_reader_factory;
          Log_exception; Call_reader_factory].
Proof. reflexivity. Qed.

(** The other path to the next attempt does sleep: after a session the
    task publishes the empty telegram and sleeps the configured interval. *)
Example session_then_sleep :
  trace <$> run sample_config
              [(running, Connected (Some 1%nat) (Some 1%nat)); (running, Returned_None);
               (running, Returned_None)]
              (started running)
  = Some [Call_reader_factory; Listen_once; Wait_closed; Call_stop_listener;
          Publish ∅; Sleep 30; Call_reader_factory].
Proof. reflexivity. Qed.



(** C4 as stated fails, in two ways.  The wait for the closure inside the
    handler is a suspension of its own: a cancellation delivered there
    leaves the task with [CancelledError], the closure not awaited and
    the connection still open.  And a listener of an earlier session can
    stay registered: when the first session ends while Home Assistant is
    stopping, [stop_listener()] is not called for it, the next session
    assigns [stop_listener] anew, and the cancellation removes the newer
    listener only. *)
Lemma cancellation_in_handler_propagates :
  step sample_config running (the_task connected_state) (Throw CancelledError)
  = Some ((At_cancel_wait, snd (the_task connected_state)),
          [Call_stop_listener; Transport_close; Wait_closed]) /\
  can_resume At_cancel_wait (Throw CancelledError) = true /\
  step sample_config running (At_cancel_wait, snd (the_task connected_state))
    (Throw CancelledError)
  = Some ((Finished (Propagated CancelledError), snd (the_task connected_state)), []) /\
  conn_open (host_step At_cancel_wait (Throw CancelledError) []
               (host_step At_wait_closed (Throw CancelledError)
                  [Call_stop_listener; Transport_close; Wait_closed]
                  (the_host connected_state))) = true /\
  run sample_config
    [(final_write, Connected (Some 1%nat) (Some 1%nat)); (final_write, Returned_None);
     (final_write, Returned_None); (final_write, Connected (Some 2%nat) (Some 2%nat))]
    (started final_write) = Some second_session /\
  step sample_config final_write (the_task second_session) (Throw CancelledError)
  = Some ((At_cancel_wait, snd (the_task second_session)),
          [Call_stop_listener; Transport_close; Wait_closed]) /\
  registered (host_step At_wait_closed (Throw CancelledError)
                [Call_stop_listener; Transport_close; Wait_closed]
                (the_host second_session)) = [0%nat].
Proof. repeat split; reflexivity. Qed.

(** Cancelled during the wait for the reader to close: listener released,
    transport closed, closure awaited, then the return. *)
Example cancelled_while_connected :
  step sample_config running (the_task connected_state) (Throw CancelledError)
  = Some ((At_cancel_wait, snd (the_task connected_state)),
          [Call_stop_listener; Transport_close; Wait_closed]).
Proof. reflexivity. Qed.

(** * The platform as a whole: what a disconnect does to the views *)

Lemma empty_telegram_clears (devs : list DSMREntity) :
  Forall (fun d => state d = Ret PNone /\ unit_of_measurement d = Ret PNone)
         (fst (update_entities_telegram devs ∅)).
Proof.
  pose proof (update_entities_telegram_stores devs ∅) as H.
  eapply Forall_impl; [exact H|]. simpl. intros d Hd.
  split.
  - apply state_of_none, get_attr_absent. rewrite Hd. apply lookup_empty.
  - apply get_attr_absent. rewrite Hd. apply lookup_empty.
Qed.

(** After a session the task always calls the throttled function with the
    empty telegram; when that call is outside the suppression window it is
    forwarded and every view reads [None]. *)
Lemma disconnect_publishes_empty
    (config : Config) (hs : CoreState) (l : locals) :
  exists t pre,
    step config hs (At_wait_closed, l) Returned_None
    = Some (t, pre ++ [Publish ∅; Sleep (reconnect_interval config)]) /\
    fst t = At_sleep.
Proof.
  simpl. destruct (negb (is_stopping hs)); eexists _, _; split; reflexivity.
Qed.

Lemma disconnect_clears_when_forwarded (p : Platform) (now : Z) :
  is_throttled (throttle p) now = false ->
  Forall (fun d => state d = Ret PNone /\ unit_of_measurement d = Ret PNone)
         (devices (fst (publish now ∅ p))).
Proof.
  intros H. rewrite (publish_forwards now ∅ p H). simpl.
  apply empty_telegram_clears.
Qed.

(** C3, evaluated on the code.  With the interval at 30 seconds, a
    telegram forwarded at second 1 and the connection lost at second 5:
    the task does call the throttled function with the empty telegram,
    but the call falls in the suppression window and is dropped.  The view
    keeps the old telegram and still reads the old value, and the next
    telegram the views get is the first one of the next session, not
    the empty one. *)
Theorem disconnect_inside_window_keeps_reading :
  exists s s' : system,
    handle_all sample_config short_session (boot running [attached_view] half_minute)
    = Some s /\
    fst (supervisor s) = At_sleep /\
    publish 5 ∅ (platform s) = (platform s, None) /\
    map telegram (devices (platform s)) = [value_only_telegram] /\
    map state (devices (platform s)) = [Ret (PRound (PDecimal 1234 (-3)) 2)] /\
    handle_all sample_config reconnect s = Some s' /\
    map telegram (devices (platform s')) = [later_telegram] /\
    forwarded [(1, value_only_telegram); (5, ∅); (37, later_telegram)]
      (setup_platform [attached_view] half_minute)
    = [(1, value_only_telegram); (37, later_telegram)].
Proof.
  eexists _, _. split; [reflexivity|].
  split; [reflexivity|]. split; [reflexivity|]. split; [reflexivity|].
  split; [reflexivity|]. split; [reflexivity|]. split; reflexivity.
Qed.

(** * Further properties of the reading views *)





(** X3. The Belgian dialect and any other dialect translate a raw value
    alike exactly when it is neither "0001" nor "0002"; on these two codes
    each dialect gives what the other gives on the other code. *)
Theorem dialects_differ_on_the_two_codes (version : string) (raw : pyval) :
  version <> "5B" ->
  (translate_tariff raw "5B" = translate_tariff raw version <->
   raw <> PStr "0001" /\ raw <> PStr "0002") /\
  translate_tariff (PStr "0001") "5B" = translate_tariff (PStr "0002") version /\
  translate_tariff (PStr "0002") "5B" = translate_tariff (PStr "0001") version.
Proof.
  intros Hv. apply String.eqb_neq in Hv.
  assert (forall r, translate_tariff r version =
                    if eq_str r "0002" then PStr "normal"
                    else if eq_str r "0001" then PStr "low" else PNone) as Hplain.
  { intros r. unfold translate_tariff. rewrite Hv. reflexivity. }
  split; [|split; rewrite Hplain; reflexivity].
  rewrite Hplain. split.
  - intros H. split; intros ->; discriminate H.
  - intros [H1 H2].
    rewrite (translate_tariff_other raw "5B" H1 H2).
    now rewrite (eq_str_false raw "0001" H1), (eq_str_false raw "0002" H2).
Qed.

Lemma dialects_differ_on_the_two_codes_witness :
  translate_tariff (PStr "0001") "5B" = translate_tariff (PStr "0002") "2.2" /\
  translate_tariff (PStr "0003") "5B" = translate_tariff (PStr "0003") "2.2".
Proof.
  assert ("2.2" <> "5B") as Hv by discriminate.
  pose proof (dialects_differ_on_the_two_codes "2.2" (PStr "0003") Hv) as [Hiff [Hswap _]].
  split; [exact Hswap|].
  apply Hiff. split; discriminate.
Defined.

(** X4. A view reads its own field only: two telegrams with the same
    entry under the view's field identifier give the same state, the same
    unit and the same decision to write the state. *)
Theorem view_reads_own_field_only (self : DSMREntity) (t1 t2 : Telegram) :
  t1 !! _obis self = t2 !! _obis self ->
  state (fst (update_data self t1)) = state (fst (update_data self t2)) /\
  unit_of_measurement (fst (update_data self t1))
  = unit_of_measurement (fst (update_data self t2)) /\
  snd (update_data self t1) = snd (update_data self t2).
Proof.
  intros H.
  assert (forall a, get_dsmr_object_attr (fst (update_data self t1)) a
                    = get_dsmr_object_attr (fst (update_data self t2)) a) as Hget.
  { intros a. rewrite !update_data_fst.
    destruct (t2 !! _obis self) as [obj|] eqn:E.
    - rewrite (get_attr_present (set_telegram self t1) a obj H).
      now rewrite (get_attr_present (set_telegram self t2) a obj E).
    - rewrite (get_attr_absent (set_telegram self t1) a H).
      now rewrite (get_attr_absent (set_telegram self t2) a E). }
  split; [|split].
  - unfold state. rewrite (Hget "value"), !update_data_fst. reflexivity.
  - apply Hget.
  - unfold update_data, obis_in. simpl. rewrite H.
    destruct (_ && _); reflexivity.
Qed.

Lemma view_reads_own_field_only_witness :
  state (fst (update_data sample_view
                (<[ ELECTRICITY_ACTIVE_TARIFF := {[ "value" := Attr (PStr "0001") ]} ]>
                   value_only_telegram)))
  = state (fst (update_data sample_view value_only_telegram)).
Proof.
  apply (view_reads_own_field_only sample_view
           (<[ ELECTRICITY_ACTIVE_TARIFF := {[ "value" := Attr (PStr "0001") ]} ]>
              value_only_telegram)
           value_only_telegram).
  reflexivity.
Defined.

Section Strings.

Lemma chars_app (a b : string) :
  list_ascii_of_string (a +:+ b) = list_ascii_of_string a ++ list_ascii_of_string b.
Proof. induction a as [|c a IH]; simpl; [reflexivity | now rewrite IH]. Qed.

Lemma string_of_app (l1 l2 : list ascii) :
  string_of_list_ascii (l1 ++ l2) = string_of_list_ascii l1 +:+ string_of_list_ascii l2.
Proof. induction l1 as [|c l1 IH]; simpl; [reflexivity | now rewrite IH]. Qed.

Lemma chars_length (a : string) :
  length (list_ascii_of_string a) = String.length a.
Proof. induction a as [|c a IH]; simpl; [reflexivity | now rewrite IH]. Qed.

Lemma chars_inj (a b : string) :
  list_ascii_of_string a = list_ascii_of_string b -> a = b.
Proof.
  intros H. rewrite <- (string_of_list_ascii_of_string a),
    <- (string_of_list_ascii_of_string b). now rewrite H.
Qed.

Lemma unique_id_chars (name device_name device_serial obis : string)
    (config : Config) (force_update : bool) :
  list_ascii_of_string
    (_attr_unique_id (__init__ name device_name device_serial obis config force_update))
  = map unspace (list_ascii_of_string device_serial)
    ++ "_"%char :: map unspace (list_ascii_of_string name).
Proof.
  simpl. unfold replace_char. rewrite list_ascii_of_string_of_list_ascii.
  rewrite !chars_app, !map_app. reflexivity.
Qed.

Lemma unspace_id (l : list ascii) :
  ~ In " "%char l -> map unspace l = l.
Proof.
  induction l as [|c l IH]; simpl; intros H; [reflexivity|].
  rewrite IH by tauto. unfold unspace.
  destruct (Ascii.eqb c " ") eqn:E; [|reflexivity].
  apply Ascii.eqb_eq in E. subst. tauto.
Qed.

Lemma unspace_no_space (l : list ascii) : ~ In " "%char (map unspace l).
Proof.
  induction l as [|c l IH]; simpl; [tauto|].
  intros [H|H]; [|tauto]. unfold unspace in H.
  destruct (Ascii.eqb c " ") eqn:E; [discriminate H|].
  apply Ascii.eqb_neq in E. congruence.
Qed.

Lemma starts_with_spec (needle hay : list ascii) :
  starts_with needle hay = true <-> exists rest, hay = needle ++ rest.
Proof.
  revert hay. induction needle as [|a needle IH]; intros hay; simpl.
  - split; eauto.
  - destruct hay as [|b hay].
    + split; [discriminate | intros [rest H]; discriminate H].
    + rewrite andb_true_iff, Ascii.eqb_eq, IH. split.
      * intros [-> [rest ->]]. eauto.
      * intros [rest [= -> ->]]. eauto.
Qed.

Lemma occurs_in_spec (needle hay : list ascii) :
  occurs_in needle hay = true <-> exists before after, hay = before ++ needle ++ after.
Proof.
  induction hay as [|b hay IH]; simpl.
  - rewrite orb_false_r, starts_with_spec. split.
    + intros [rest H]. exists [], rest. exact H.
    + intros [before [after H]]. destruct before; [eauto|discriminate H].
  - rewrite orb_true_iff, IH, starts_with_spec. split.
    + intros [[rest H] | [before [after H]]].
      * exists [], rest. exact H.
      * exists (b :: before), after. simpl. now rewrite H.
    + intros [[|c before] [after H]]; simpl in H.
      * left. eauto.
      * injection H as -> ->. right. eauto.
Qed.

Lemma str_in_spec (kw name : string) :
  str_in kw name = true <-> substring kw name.
Proof.
  unfold str_in, substring. rewrite occurs_in_spec. split.
  - intros [before [after H]].
    exists (string_of_list_ascii before), (string_of_list_ascii after).
    apply chars_inj. rewrite H, !chars_app, !list_ascii_of_string_of_list_ascii.
    reflexivity.
  - intros [before [after ->]].
    exists (list_ascii_of_string before), (list_ascii_of_string after).
    now rewrite !chars_app.
Qed.

Lemma str_in_false (kw name : string) :
  str_in kw name = false <-> ~ substring kw name.
Proof.
  rewrite <- str_in_spec. destruct (str_in kw name); split; congruence.
Qed.

End Strings.

(** X5. The unique id of a new entity is the serial, an underscore and the
    name, with every space turned into an underscore: it holds no space,
    it is one character longer than serial and name together, and it is
    serial, underscore, name itself when neither holds a space. *)
Theorem unique_id_shape (name device_name device_serial obis : string)
    (config : Config) (force_update : bool) :
  let id := _attr_unique_id
              (__init__ name device_name device_serial obis config force_update) in
  ~ In " "%char (list_ascii_of_string id) /\
  String.length id = (String.length device_serial + 1 + String.length name)%nat /\
  (~ In " "%char (list_ascii_of_string device_serial) ->
   ~ In " "%char (list_ascii_of_string name) ->
   id = device_serial +:+ "_" +:+ name).
Proof.
  intros id. subst id.
  pose proof (unique_id_chars name device_name device_serial obis config force_update)
    as Hc.
  split; [|split].
  - rewrite Hc. intros H. apply in_app_or in H. destruct H as [H|[H|H]].
    + now apply unspace_no_space in H.
    + discriminate H.
    + now apply unspace_no_space in H.
  - rewrite <- (chars_length _), Hc.
    rewrite length_app. simpl. rewrite !length_map, !chars_length. lia.
  - intros Hs Hn. apply chars_inj. rewrite Hc, !chars_app.
    rewrite (unspace_id _ Hs), (unspace_id _ Hn). reflexivity.
Qed.

(** X6. The icon follows the first keyword, in the order Sags or Swells,
    Failure, Power, Gas, that occurs in the name with that very spelling;
    a name with none of them has no icon. *)
Theorem icon_by_first_keyword (self : DSMREntity) :
  let has kw := substring kw (_attr_name self) in
  (icon self = Some ICON_SWELL_SAG <-> has "Sags" \/ has "Swells") /\
  (icon self = Some ICON_POWER_FAILURE <->
     has "Failure" /\ ~ has "Sags" /\ ~ has "Swells") /\
  (icon self = Some ICON_POWER <->
     has "Power" /\ ~ has "Failure" /\ ~ has "Sags" /\ ~ has "Swells") /\
  (icon self = Some ICON_GAS <->
     has "Gas" /\ ~ has "Power" /\ ~ has "Failure" /\ ~ has "Sags" /\ ~ has "Swells") /\
  (icon self = None <->
     ~ has "Gas" /\ ~ has "Power" /\ ~ has "Failure" /\ ~ has "Sags" /\ ~ has "Swells").
Proof.
  intros has. subst has. cbv beta. unfold icon.
  rewrite <- !str_in_spec.
  destruct (str_in "Sags" (_attr_name self)), (str_in "Swells" (_attr_name self)),
    (str_in "Failure" (_attr_name self)), (str_in "Power" (_attr_name self)),
    (str_in "Gas" (_attr_name self)); simpl;
    repeat split; intros; try discriminate; try tauto; try congruence;
    intuition congruence.
Qed.

Lemma unique_id_shape_witness :
  _attr_unique_id (__init__ "Gas" "Gas Meter" "4730303" sample_obis sample_config true)
  = "4730303_Gas".
Proof.
  refine (proj2 (proj2 (unique_id_shape "Gas" "Gas Meter" "4730303" sample_obis
                          sample_config true)) _ _);
    vm_compute; intuition discriminate.
Defined.

(** * Properties of the setup *)

Section Setup_facts.
Variable lib : obis_ref.reference -> string.
Variables energy gas : string.

Lemma obis_mapping_length (version : string) :
  length (obis_mapping version) = if String.eqb version "5L" then 29%nat else 28%nat.
Proof. unfold obis_mapping. destruct (String.eqb version "5L"); reflexivity. Qed.

Lemma setup_devices_fresh (entry : Entry) :
  Forall (fun d => _config d = data entry /\ telegram d = ∅ /\ hass d = None)
         (setup_devices lib energy gas entry).
Proof.
  unfold setup_devices.
  assert (Forall (fun d => _config d = data entry /\ telegram d = ∅ /\ hass d = None)
            (map (fun '(name, obis, force_update) =>
                    __init__ name energy (serial_id entry) (lib obis)
                      (data entry) force_update)
                 (obis_mapping (dsmr_version (data entry))))) as H.
  { apply List.Forall_map, Forall_forall. intros [[n o] f] _. simpl. auto. }
  destruct (serial_id_gas entry) as [g|]; [|exact H].
  apply Forall_app. split; [exact H|]. constructor; [simpl; auto|constructor].
Qed.

(** The end of [A ++ X] is the end of [X]. *)
Lemma tails_differ (k : nat) (A B X Y : list ascii) :
  (k <= length X)%nat -> (k <= length Y)%nat ->
  take k (rev X) <> take k (rev Y) ->
  A ++ X <> B ++ Y.
Proof.
  intros HX HY Hne Heq. apply Hne.
  apply (f_equal (@rev ascii)) in Heq. rewrite !rev_app_distr in Heq.
  apply (f_equal (take k)) in Heq.
  rewrite !take_app_le in Heq by (rewrite length_rev; lia). exact Heq.
Qed.

Lemma energy_names_distinct (version : string) :
  List.NoDup (map (fun x : string * obis_ref.reference * bool =>
                map unspace (list_ascii_of_string (fst (fst x))))
             (obis_mapping version)).
Proof.
  apply NoDup_ListNoDup.
  unfold obis_mapping. destruct (String.eqb version "5L");
    compute_done.
Qed.

Lemma energy_names_end_unlike_gas (version : string) :
  Forall (fun x : string * obis_ref.reference * bool =>
            let X := "_"%char :: map unspace (list_ascii_of_string (fst (fst x))) in
            let Y := "_"%char :: map unspace (list_ascii_of_string "Gas Consumption") in
            (13 <= length X)%nat /\ take 13 (rev X) <> take 13 (rev Y))
         (obis_mapping version).
Proof.
  unfold obis_mapping. destruct (String.eqb version "5L");
    compute_done.
Qed.

End Setup_facts.

Lemma energy_names_not_gas (version : string) :
  Forall (fun x : string * obis_ref.reference * bool => fst (fst x) <> "Gas Consumption")
         (obis_mapping version).
Proof.
  unfold obis_mapping. destruct (String.eqb version "5L"); compute_done.
Qed.

(** X7. The setup makes 28 devices, one more for protocol version "5L"
    and one more when the entry has a gas serial; every one of them holds
    the entry's configuration. *)
Theorem setup_devices_count
    (lib : obis_ref.reference -> string) (energy gas : string) (entry : Entry) :
  length (setup_devices lib energy gas entry)
  = (28 + (if String.eqb (dsmr_version (data entry)) "5L" then 1 else 0)
        + (if serial_id_gas entry is Some _ then 1 else 0))%nat /\
  Forall (fun d => _config d = data entry) (setup_devices lib energy gas entry).
Proof.
  split.
  - unfold setup_devices.
    destruct (serial_id_gas entry);
      rewrite ?length_app, length_map, obis_mapping_length;
      destruct (String.eqb (dsmr_version (data entry)) "5L"); reflexivity.
  - eapply Forall_impl; [apply setup_devices_fresh|]. simpl. tauto.
Qed.

(** X8. The devices of one setup have pairwise different unique ids,
    whatever the two serials are. *)
Theorem setup_unique_ids_distinct
    (lib : obis_ref.reference -> string) (energy gas : string) (entry : Entry) :
  List.NoDup (map _attr_unique_id (setup_devices lib energy gas entry)).
Proof.
  apply (List.NoDup_map_inv list_ascii_of_string). rewrite map_map.
  unfold setup_devices.
  set (S := map unspace (list_ascii_of_string (serial_id entry))).
  assert (forall l : list (string * obis_ref.reference * bool),
            map (fun d => list_ascii_of_string (_attr_unique_id d))
                (map (fun '(name, obis, force_update) =>
                        __init__ name energy (serial_id entry) (lib obis)
                          (data entry) force_update) l)
            = map (fun N => S ++ "_"%char :: N)
                  (map (fun x => map unspace (list_ascii_of_string (fst (fst x)))) l))
    as Hids.
  { intros l. rewrite !map_map. apply map_ext. intros [[n o] f].
    apply unique_id_chars. }
  assert (List.NoDup (map (fun d => list_ascii_of_string (_attr_unique_id d))
                   (map (fun '(name, obis, force_update) =>
                           __init__ name energy (serial_id entry) (lib obis)
                             (data entry) force_update)
                        (obis_mapping (dsmr_version (data entry)))))) as Henergy.
  { rewrite Hids. apply Injective_map_NoDup.
    - intros N1 N2 H. apply app_inv_head in H. now injection H.
    - apply energy_names_distinct. }
  destruct (serial_id_gas entry) as [g|]; [|exact Henergy].
  rewrite map_app. apply List.NoDup_app; [exact Henergy| |].
  - simpl. constructor; [intros []|constructor].
  - intros id Hin Hgas.
    cbn [map In] in Hgas. destruct Hgas as [Hgas|[]].
    rewrite unique_id_chars in Hgas. rewrite Hids, map_map in Hin.
    apply in_map_iff in Hin. destruct Hin as [x [Hx Hin]].
    pose proof (energy_names_end_unlike_gas (dsmr_version (data entry))) as Hend.
    rewrite Forall_forall in Hend. apply list_elem_of_In in Hin.
    destruct (Hend x Hin) as [Hlen Hne].
    revert Hx. rewrite <- Hgas. apply (tails_differ 13); [exact Hlen| |exact Hne].
    compute_done.
Qed.

(** X9. A device named "Gas Consumption" exists exactly when the entry
    has a gas serial; it is then the entity made from that serial, bound
    to the hourly reading for versions "4", "5" and "5L", to the Belgian
    hourly reading for "5B" and to the legacy reading for any other
    version. *)
Theorem setup_gas_device
    (lib : obis_ref.reference -> string) (energy gas : string) (entry : Entry) :
  let version := dsmr_version (data entry) in
  (forall d, In d (setup_devices lib energy gas entry) ->
     (_attr_name d = "Gas Consumption" <->
      exists g, serial_id_gas entry = Some g /\
                d = __init__ "Gas Consumption" gas g (lib (gas_obis version))
                      (data entry) true)) /\
  (forall g, serial_id_gas entry = Some g ->
     In (__init__ "Gas Consumption" gas g (lib (gas_obis version)) (data entry) true)
        (setup_devices lib energy gas entry)) /\
  (gas_obis version = obis_ref.HOURLY_GAS_METER_READING <->
     version = "4" \/ version = "5" \/ version = "5L") /\
  (gas_obis version = obis_ref.BELGIUM_HOURLY_GAS_METER_READING <-> version = "5B") /\
  (gas_obis version = obis_ref.GAS_METER_READING <->
     version <> "4" /\ version <> "5" /\ version <> "5L" /\ version <> "5B").
Proof.
  intros version.
  assert (forall d,
            In d (map (fun '(name, obis, force_update) =>
                         __init__ name energy (serial_id entry) (lib obis)
                           (data entry) force_update)
                      (obis_mapping version)) ->
            _attr_name d <> "Gas Consumption") as Henergy.
  { intros d Hd. apply in_map_iff in Hd. destruct Hd as [[[n o] f] [<- Hin]].
    pose proof (energy_names_not_gas version) as H. rewrite Forall_forall in H.
    apply list_elem_of_In in Hin. exact (H _ Hin). }
  split; [|split].
  - intros d Hd. unfold setup_devices in Hd. fold version in Hd.
    destruct (serial_id_gas entry) as [g|].
    + apply in_app_or in Hd. destruct Hd as [Hd|[<-|[]]].
      * split; [intros H; now apply Henergy in Hd|].
        intros [g' [_ ->]]. now apply Henergy in Hd.
      * split; [eauto|reflexivity].
    + split; [intros H; now apply Henergy in Hd|]. intros [g [H _]]. discriminate H.
  - intros g Hg. unfold setup_devices. fold version. rewrite Hg.
    apply in_or_app. right. now left.
  - unfold gas_obis, version_in. simpl.
    destruct (String.eqb_spec version "4"), (String.eqb_spec version "5"),
      (String.eqb_spec version "5L"), (String.eqb_spec version "5B");
      simpl; subst; repeat split; intros; try discriminate; try tauto;
      intuition (try discriminate; try congruence).
Qed.

Lemma absent_or_empty (d : DSMREntity) :
  telegram d = ∅ -> state d = Ret PNone /\ unit_of_measurement d = Ret PNone.
Proof.
  intros Ht. split.
  - apply state_of_none, get_attr_absent. rewrite Ht. apply lookup_empty.
  - apply get_attr_absent. rewrite Ht. apply lookup_empty.
Qed.

Lemma update_data_unattached (self : DSMREntity) (t : Telegram) :
  hass self = None -> snd (update_data self t) = false.
Proof.
  intros Hh. destruct (snd (update_data self t)) eqn:E; [|reflexivity].
  apply update_data_notified in E. rewrite Hh in E.
  destruct E as [[x Hx] _]. discriminate Hx.
Qed.

(** X10. Right after the setup every device reads [None] for state and
    unit.  The first call of the throttled function, at whatever time, is
    forwarded: every device stores its telegram, and none of them writes
    its state, as none is attached yet. *)
Theorem first_telegram_after_setup
    (lib : obis_ref.reference -> string) (energy gas : string)
    (entry : Entry) (options : Options) (now : Z) (t : Telegram) :
  let p := async_setup_entry lib energy gas entry options in
  Forall (fun d => state d = Ret PNone /\ unit_of_measurement d = Ret PNone) (devices p) /\
  snd (publish now t p) = Some (map (fun _ => false) (devices p)) /\
  Forall (fun d => telegram d = t) (devices (fst (publish now t p))) /\
  last_call (throttle (fst (publish now t p))) = Some now.
Proof.
  intros p. subst p. unfold async_setup_entry.
  pose proof (setup_devices_fresh lib energy gas entry) as Hfresh.
  set (devs := setup_devices lib energy gas entry) in *.
  split; [|rewrite publish_forwards by reflexivity; simpl; split; [|split]].
  - eapply Forall_impl; [exact Hfresh|]. simpl. intros d (_ & Ht & _).
    apply absent_or_empty. exact Ht.
  - f_equal. unfold update_entities_telegram. simpl. rewrite map_map.
    apply map_ext_Forall. eapply Forall_impl; [exact Hfresh|]. simpl.
    intros d (_ & _ & Hh). now apply update_data_unattached.
  - apply update_entities_telegram_stores.
  - reflexivity.
Qed.

(** X11. Forwarding is last-write-wins: after two forwarded telegrams the
    devices, and the writes of the second forwarding, are those of
    forwarding the second telegram alone; forwarding changes neither the
    number of devices nor their field identifiers, configuration or
    attachment. *)
Theorem forwarding_last_write_wins (devs : list DSMREntity) (t1 t2 : Telegram) :
  update_entities_telegram (fst (update_entities_telegram devs t1)) t2
  = update_entities_telegram devs t2 /\
  length (fst (update_entities_telegram devs t1)) = length devs /\
  map (fun d => (_obis d, _config d, hass d, _attr_unique_id d))
      (fst (update_entities_telegram devs t1))
  = map (fun d => (_obis d, _config d, hass d, _attr_unique_id d)) devs.
Proof.
  unfold update_entities_telegram. simpl. rewrite !map_map.
  split; [|split].
  - f_equal.
    + apply map_ext. intros d. rewrite !update_data_fst. reflexivity.
    + apply map_ext. intros d. rewrite update_data_fst.
      unfold update_data, obis_in. simpl. reflexivity.
  - apply length_map.
  - apply map_ext. intros d. rewrite update_data_fst. reflexivity.
Qed.

(** X12. After any sequence of calls the devices hold the telegram of the
    last forwarded call and the throttle remembers its time; when no call
    was forwarded the platform is as it was. *)
Theorem devices_hold_last_forwarded (pubs : list (Z * Telegram)) (p : Platform) :
  match last (forwarded pubs p) with
  | Some (now, t) =>
      last_call (throttle (publish_all pubs p)) = Some now /\
      Forall (fun d => telegram d = t) (devices (publish_all pubs p))
  | None => publish_all pubs p = p
  end.
Proof.
  revert p. induction pubs as [|[now t] rest IH]; intros p; simpl.
  - reflexivity.
  - destruct (is_throttled (throttle p) now) eqn:E.
    + rewrite (publish_dropped now t p E). simpl. apply IH.
    + rewrite (publish_forwards now t p E). simpl.
      set (p' := {| devices := _; throttle := _ |}).
      specialize (IH p'). rewrite last_cons.
      destruct (last (forwarded rest p')) as [[n' t']|].
      * exact IH.
      * rewrite IH. simpl. split; [reflexivity|].
        apply update_entities_telegram_stores.
Qed.

(** * Further properties of the supervision coroutine *)

Import Trace.

Lemma paced_from_app (seconds : Z) (x y : list action) :
  forall b, paced_from seconds b x = true ->
            paced_from seconds b (x ++ y) = paced_from seconds false y.
Proof.
  induction x as [|a x IH]; intros b H; simpl in *.
  - destruct b; [discriminate H|reflexivity].
  - destruct b; destruct a; try discriminate H;
      try (apply andb_true_iff in H; destruct H as [H1 H2]; rewrite H1; simpl);
      now apply IH.
Qed.

Lemma step_paced (config : Config) (hs : CoreState) (tk t : task) (r : resume)
    (acts : list action) :
  step config hs tk r = Some (t, acts) ->
  paced (reconnect_interval config) acts = true.
Proof.
  destruct tk as [pt [sl tp pr]]. unfold paced.
  destruct pt; destruct r as [[n|] [m|]| |[]]; destruct hs;
    destruct sl as [[]|]; destruct tp, pr; simpl;
    intros H; try discriminate H; injection H as <- <-; simpl;
    rewrite ?Z.eqb_refl; reflexivity.
Qed.

Lemma run_trace_paced (config : Config) (ins : list (CoreState * resume)) :
  forall s s',
    paced (reconnect_interval config) (trace s) = true ->
    run config ins s = Some s' ->
    paced (reconnect_interval config) (trace s') = true.
Proof.
  induction ins as [|[hs r] rest IH]; intros s s' Hp Hrun; simpl in Hrun.
  - injection Hrun as <-. exact Hp.
  - destruct (can_resume (fst (the_task s)) r); [|discriminate].
    destruct (step config hs (the_task s) r) as [[t acts]|] eqn:E; [|discriminate].
    eapply IH; [|exact Hrun]. simpl. unfold paced in *.
    rewrite (paced_from_app _ _ _ _ Hp). exact (step_paced _ _ _ _ _ _ E).
Qed.

(** X14. In every run of the task, the calls of the throttled function
    and the sleeps come in pairs only: each call passes the empty
    telegram and is directly followed by a sleep of the configured
    reconnect interval, and the task sleeps at no other place. *)
Theorem supervisor_publishes_then_sleeps
    (config : Config) (ins : list (CoreState * resume)) (hs0 : CoreState)
    (s : run_state) :
  run config ins (started hs0) = Some s ->
  paced (reconnect_interval config) (trace s) = true.
Proof.
  apply run_trace_paced. destruct hs0; reflexivity.
Qed.

Lemma supervisor_publishes_then_sleeps_witness :
  exists s,
    run sample_config
      [(running, Connected (Some 1%nat) (Some 1%nat)); (running, Returned_None);
       (running, Returned_None); (running, Throw OSError)]
      (started running) = Some s /\
    paced 30 (trace s) = true.
Proof.
  eexists. split; [reflexivity|].
  apply (supervisor_publishes_then_sleeps sample_config
           [(running, Connected (Some 1%nat) (Some 1%nat)); (running, Returned_None);
            (running, Returned_None); (running, Throw OSError)] running).
  reflexivity.
Defined.

Lemma step_plain_suspended (config : Config) (hs : CoreState) (tk t : task)
    (r : resume) (acts : list action) :
  suspended (fst tk) = true ->
  plain (hs, r) = true ->
  can_resume (fst tk) r = true ->
  step config hs tk r = Some (t, acts) ->
  suspended (fst t) = true.
Proof.
  destruct tk as [pt l]. unfold plain. simpl.
  destruct pt; try discriminate; intros _;
    destruct r as [[n|] [m|]| |[]]; destruct hs; simpl;
    intros Hp Hc H; try discriminate Hp; try discriminate Hc; try discriminate H;
    injection H as <- <-; reflexivity.
Qed.

(** X13. The loop does not end on its own: as long as Home Assistant is
    not in the stopping state at a resumption, no cancellation is thrown
    and the reader factory gives a protocol with every transport, the task
    is still suspended at one of its three awaits, whatever fails and
    however often. *)
Theorem supervisor_keeps_running
    (config : Config) (ins : list (CoreState * resume)) (hs0 : CoreState)
    (s : run_state) :
  state_is_stopping hs0 = false ->
  forallb plain ins = true ->
  run config ins (started hs0) = Some s ->
  suspended (fst (the_task s)) = true.
Proof.
  intros H0.
  assert (suspended (fst (the_task (started hs0))) = true) as Hs
    by (destruct hs0; try discriminate H0; reflexivity).
  revert Hs. generalize (started hs0). clear H0.
  induction ins as [|[hs r] rest IH]; intros s0 Hs Hp Hrun; simpl in *.
  - injection Hrun as <-. exact Hs.
  - apply andb_true_iff in Hp. destruct Hp as [Hp Hrest].
    destruct (can_resume (fst (the_task s0)) r) eqn:Hc; [|discriminate].
    destruct (step config hs (the_task s0) r) as [[t acts]|] eqn:E; [|discriminate].
    eapply IH; [|exact Hrest|exact Hrun].
    exact (step_plain_suspended _ _ _ _ _ _ Hs Hp Hc E).
Qed.

Lemma supervisor_keeps_running_witness :
  exists s,
    run sample_config
      [(running, Throw OSError); (final_write, Throw SerialException);
       (running, Connected None None); (stopped, Returned_None)]
      (started running) = Some s /\
    suspended (fst (the_task s)) = true.
Proof.
  eexists. split; [reflexivity|].
  apply (supervisor_keeps_running sample_config
           [(running, Throw OSError); (final_write, Throw SerialException);
            (running, Connected None None); (stopped, Returned_None)] running);
    reflexivity.
Defined.





Lemma step_keeps_listener (config : Config) (hs : CoreState) (tk t : task)
    (r : resume) (acts : list action) :
  step config hs tk r = Some (t, acts) ->
  (existsb is_listen_once acts = true \/ truthy (stop_listener (snd tk)) = true) ->
  truthy (stop_listener (snd t)) = true.
Proof.
  destruct tk as [pt [sl tp pr]]. simpl.
  destruct pt; destruct r as [[n|] [m|]| |[]]; destruct hs;
    destruct sl as [[]|]; destruct tp, pr; simpl;
    intros H; try discriminate H; injection H as <- <-; simpl;
    intros [Hx|Hx]; try discriminate Hx; reflexivity.
Qed.

Lemma run_keeps_listener (config : Config) (ins : list (CoreState * resume)) :
  forall s s',
    (existsb is_listen_once (trace s) = true ->
     truthy (stop_listener (snd (the_task s))) = true) ->
    run config ins s = Some s' ->
    existsb is_listen_once (trace s') = true ->
    truthy (stop_listener (snd (the_task s'))) = true.
Proof.
  induction ins as [|[hs r] rest IH]; intros s s' Hq Hrun; simpl in Hrun.
  - injection Hrun as <-. exact Hq.
  - destruct (can_resume (fst (the_task s)) r); [|discriminate].
    destruct (step config hs (the_task s) r) as [[t acts]|] eqn:E; [|discriminate].
    eapply IH; [|exact Hrun]. simpl. rewrite existsb_app, orb_true_iff.
    intros [H|H]; apply (step_keeps_listener _ _ _ _ _ _ E); auto.
Qed.

(** X16. The unsubscribe callback is kept for good: once the task has
    registered a stop listener, a cancellation at any of the three awaits
    begins by calling [stop_listener()], also when that listener was
    already removed after an earlier session. *)
Theorem cancellation_calls_kept_listener
    (config : Config) (ins : list (CoreState * resume)) (hs0 hs : CoreState)
    (s : run_state) :
  run config ins (started hs0) = Some s ->
  suspended (fst (the_task s)) = true ->
  existsb is_listen_once (trace s) = true ->
  exists t rest,
    step config hs (the_task s) (Throw CancelledError)
    = Some (t, Call_stop_listener :: rest).
Proof.
  intros Hrun Hsusp Hl.
  assert (truthy (stop_listener (snd (the_task s))) = true) as Hsl.
  { apply (run_keeps_listener config ins (started hs0) s); [|exact Hrun|exact Hl].
    destruct hs0; discriminate. }
  destruct s as [[pt [sl tp pr]] h tr]. simpl in *.
  destruct sl; [|discriminate Hsl].
  destruct pt; try discriminate Hsusp; simpl; unfold except_cancelled; simpl;
    destruct tp, pr; simpl; eexists _, _; reflexivity.
Qed.

Lemma cancellation_calls_kept_listener_witness :
  exists s,
    run sample_config
      [(running, Connected (Some 1%nat) (Some 1%nat)); (running, Returned_None)]
      (started running) = Some s /\
    listening (the_host s) = false /\
    exists t rest,
      step sample_config running (the_task s) (Throw CancelledError)
      = Some (t, Call_stop_listener :: rest).
Proof.
  eexists. split; [reflexivity|]. split; [reflexivity|].
  apply (cancellation_calls_kept_listener sample_config
           [(running, Connected (Some 1%nat) (Some 1%nat)); (running, Returned_None)]
           running running); reflexivity.
Defined.

(** * Further properties of the platform as a whole *)

Lemma publish_uniform (now : Z) (t : Telegram) (p : Platform) :
  uniform p -> uniform (fst (publish now t p)).
Proof.
  intros Hu. destruct (is_throttled (throttle p) now) eqn:E.
  - now rewrite (publish_dropped now t p E).
  - rewrite (publish_forwards now t p E). exists t. simpl.
    apply update_entities_telegram_stores.
Qed.

Lemma deliver_uniform (now : Z) (acts : list action) :
  forall p, uniform p -> uniform (deliver now acts p).
Proof.
  induction acts as [|a acts IH]; intros p Hu; simpl; [exact Hu|].
  destruct a; try (now apply IH). apply IH. now apply publish_uniform.
Qed.

Lemma handle_uniform (config : Config) (now : Z) (ev : event) (s s' : system) :
  uniform (platform s) -> handle config now ev s = Some s' -> uniform (platform s').
Proof.
  intros Hu. unfold handle. destruct ev as [hs r|t].
  - destruct (can_resume (fst (supervisor s)) r); [|discriminate].
    destruct (step config hs (supervisor s) r) as [[t acts]|]; [|discriminate].
    intros [= <-]. simpl. now apply deliver_uniform.
  - destruct (fst (supervisor s)); try discriminate.
    intros [= <-]. simpl. now apply publish_uniform.
Qed.

Lemma handle_all_uniform (config : Config) (evs : list (Z * event)) :
  forall s s', uniform (platform s) -> handle_all config evs s = Some s' ->
               uniform (platform s').
Proof.
  induction evs as [|[now ev] rest IH]; intros s s' Hu H; simpl in H.
  - injection H as <-. exact Hu.
  - destruct (handle config now ev s) as [s1|] eqn:E; [|discriminate].
    apply (IH s1 s'); [|exact H]. apply (handle_uniform config now ev s s1 Hu E).
Qed.

(** X17. One snapshot for all.  From the setup on, through any sequence
    of resumptions of the task and telegrams read, all devices of the
    platform store one and the same telegram. *)
Theorem devices_share_one_telegram
    (lib : obis_ref.reference -> string) (energy gas : string)
    (entry : Entry) (options : Options) (hs : CoreState)
    (evs : list (Z * event)) (s : system) :
  handle_all (data entry) evs
    (boot hs (setup_devices lib energy gas entry) options) = Some s ->
  uniform (platform s).
Proof.
  apply handle_all_uniform. exists ∅. simpl.
  eapply Forall_impl; [apply setup_devices_fresh|]. simpl. tauto.
Qed.

Lemma devices_share_one_telegram_witness :
  exists s,
    handle_all (data sample_entry) short_session
      (boot running (setup_devices sample_lib "Energy" "Gas" sample_entry) half_minute)
    = Some s /\
    uniform (platform s).
Proof.
  eexists. split; [reflexivity|].
  apply (devices_share_one_telegram sample_lib "Energy" "Gas" sample_entry
           half_minute running short_session).
  reflexivity.
Defined.

Lemma deliver_clears (seconds now : Z) (p0 : Platform) (acts : list action) :
  forall b p,
    paced_from seconds b acts = true ->
    (p = p0 \/ cleared p /\ last_call (throttle p) = Some now) ->
    deliver now acts p = p0 \/
    cleared (deliver now acts p) /\ last_call (throttle (deliver now acts p)) = Some now.
Proof.
  induction acts as [|a acts IH]; intros b p Hp HR; simpl; [exact HR|].
  simpl in Hp.
  destruct b; destruct a; try discriminate Hp;
    try (apply andb_true_iff in Hp; destruct Hp as [H1 Hp]);
    try (now apply (IH _ _ Hp)).
  apply bool_decide_eq_true in H1. subst t.
  apply (IH _ _ Hp).
  destruct (is_throttled (throttle p) now) eqn:E.
  - now rewrite (publish_dropped now ∅ p E).
  - right. rewrite (publish_forwards now ∅ p E). simpl. split; [|reflexivity].
    unfold cleared. simpl. apply update_entities_telegram_stores.
Qed.

(** X18. A resumption of the task never gives the devices a reading: it
    leaves the platform as it was, or it leaves every device with the
    empty telegram, forwarded at that moment. *)
Theorem supervisor_only_clears
    (config : Config) (now : Z) (hs : CoreState) (r : resume) (s s' : system) :
  handle config now (Resumed hs r) s = Some s' ->
  platform s' = platform s \/
  cleared (platform s') /\ last_call (throttle (platform s')) = Some now.
Proof.
  unfold handle.
  destruct (can_resume (fst (supervisor s)) r); [|discriminate].
  destruct (step config hs (supervisor s) r) as [[t acts]|] eqn:E; [|discriminate].
  intros [= <-]. simpl.
  apply (deliver_clears (reconnect_interval config) now (platform s) acts false).
  - exact (step_paced _ _ _ _ _ _ E).
  - now left.
Qed.

Lemma supervisor_only_clears_witness :
  exists s s',
    handle_all sample_config
      [(0, Resumed running (Connected (Some 1%nat) (Some 1%nat)));
       (1, Telegram_read value_only_telegram)]
      (boot running [attached_view] half_minute) = Some s /\
    handle sample_config 40 (Resumed running Returned_None) s = Some s' /\
    cleared (platform s').
Proof.
  eexists _, _. split; [reflexivity|].
  lazymatch goal with
  | |- handle _ _ _ ?s0 = Some ?s1 /\ _ =>
      split; [reflexivity|];
      destruct (supervisor_only_clears sample_config 40 running Returned_None
                  s0 s1 eq_refl) as [H|[H _]]
  end.
  - apply (f_equal (fun p => last_call (throttle p))) in H. discriminate H.
  - exact H.
Defined.

(** X19. An exception thrown into the task, be it a failed open or a
    cancellation, never touches the devices: the platform is as it was,
    so the views keep whatever they read before. *)
Theorem thrown_exception_keeps_readings
    (config : Config) (now : Z) (hs : CoreState) (e : signal) (s s' : system) :
  handle config now (Resumed hs (Throw e)) s = Some s' ->
  platform s' = platform s.
Proof.
  unfold handle. destruct s as [[pt [sl tp pr]] p]. simpl.
  destruct pt; destruct e; simpl; try discriminate;
    destruct hs; destruct sl as [[]|]; destruct tp, pr; simpl;
    intros [= <-]; reflexivity.
Qed.

Lemma thrown_exception_keeps_readings_witness :
  exists s s',
    handle_all sample_config
      [(0, Resumed running (Connected (Some 1%nat) (Some 1%nat)));
       (1, Telegram_read value_only_telegram);
       (5, Resumed running Returned_None);
       (35, Resumed running Returned_None)]
      (boot running [attached_view] half_minute) = Some s /\
    handle sample_config 36 (Resumed running (Throw OSError)) s = Some s' /\
    map state (devices (platform s')) = [Ret (PRound (PDecimal 1234 (-3)) 2)].
Proof.
  eexists _, _. split; [reflexivity|].
  lazymatch goal with
  | |- handle _ _ _ ?s0 = Some ?s1 /\ _ =>
      split; [reflexivity|];
      rewrite (thrown_exception_keeps_readings sample_config 36 running OSError
                 s0 s1 eq_refl)
  end.
  reflexivity.
Defined.
